(** * ConfigManager: typed configuration resolution

    A shallow embedding of [polyaxon/config_manager/config_manager.py].
    Python values are a first-order value universe, the instance state
    ([_params] and the three bookkeeping sets, plus the slot of the cached
    property) is threaded explicitly, and every [raise] is a value of the
    result type. *)

From Stdlib Require Import ZArith Ascii String List Bool Lia.
From Stdlib Require Import Floats.SpecFloat.
From stdpp Require Import base option gmap sets list strings.

#[local] Set Warnings "-register-all,-clear-no-such-hyp".
Open Scope string_scope.
Open Scope Z_scope.

(** ** Python values *)

(** Modelled from the spec: the [UriSpec] value type of
    [config_manager/uri_spec.py], which is imported by the source but is not
    part of it: an immutable triple of three strings. *)
Record UriSpec := mkUriSpec {
  user : string;
  password : string;
  host : string
}.

(** The values [_params] can hold: the scalars, lists and mappings that a
    configuration reader or [json.loads] produces, and [UriSpec].  A [str] is
    the sequence of its UTF-8 bytes; a [float] is an IEEE binary64 datum; the
    keys of a mapping are strings, in insertion order and without
    repetition. *)
Inductive pyval :=
| VNone
| VBool (b : bool)
| VInt (z : Z)
| VFloat (f : spec_float)
| VStr (s : string)
| VList (l : list pyval)
| VDict (d : list (string * pyval))
| VUri (u : UriSpec).

(** The classes the source passes as [target_type]. *)
Inductive pytype := Tint | Tfloat | Tbool | Tstr | Tlist | TMapping | TUriSpec.

Definition pytype_eqb (a b : pytype) : bool :=
  match a, b with
  | Tint, Tint | Tfloat, Tfloat | Tbool, Tbool | Tstr, Tstr
  | Tlist, Tlist | TMapping, TMapping | TUriSpec, TUriSpec => true
  | _, _ => false
  end.

(** [isinstance(v, t)]; [bool] is a subclass of [int]. *)
Definition isinstance (v : pyval) (t : pytype) : bool :=
  match t, v with
  | Tint, VInt _ | Tint, VBool _ => true
  | Tfloat, VFloat _ => true
  | Tbool, VBool _ => true
  | Tstr, VStr _ => true
  | Tlist, VList _ => true
  | TMapping, VDict _ => true
  | TUriSpec, VUri _ => true
  | _, _ => false
  end.

Definition prec64 : Z := 53.
Definition emax64 : Z := 1024.

Definition float_is_zero (f : spec_float) : bool :=
  match f with S754_zero _ => true | _ => false end.

(** [bool(v)], the truth value tested by [not value] and [x or y]. *)
Definition truthy (v : pyval) : bool :=
  match v with
  | VNone => false
  | VBool b => b
  | VInt z => negb (z =? 0)
  | VFloat f => negb (float_is_zero f)
  | VStr s => negb (String.eqb s "")
  | VList l => match l with [] => false | _ => true end
  | VDict d => match d with [] => false | _ => true end
  | VUri _ => true
  end.

(** *** Equality, [==] *)

(** [int == float] compares the exact values. *)
Definition float_eq_int (f : spec_float) (z : Z) : bool :=
  match f with
  | S754_zero _ => z =? 0
  | S754_finite s m e =>
      let sm := if s then Z.neg m else Z.pos m in
      if 0 <=? e then z =? sm * 2 ^ e else z * 2 ^ (- e) =? sm
  | _ => false
  end.

Inductive pynum := NInt (z : Z) | NFloat (f : spec_float).

Definition as_num (v : pyval) : option pynum :=
  match v with
  | VBool b => Some (NInt (if b then 1 else 0))
  | VInt z => Some (NInt z)
  | VFloat f => Some (NFloat f)
  | _ => None
  end.

Definition num_eq (a b : pynum) : bool :=
  match a, b with
  | NInt x, NInt y => x =? y
  | NInt x, NFloat g => float_eq_int g x
  | NFloat f, NInt y => float_eq_int f y
  | NFloat f, NFloat g => SFeqb f g
  end.

Definition uri_eqb (a b : UriSpec) : bool :=
  String.eqb (user a) (user b) && String.eqb (password a) (password b)
  && String.eqb (host a) (host b).

Fixpoint dict_get (k : string) (d : list (string * pyval)) : option pyval :=
  match d with
  | [] => None
  | (k', v) :: d' => if String.eqb k k' then Some v else dict_get k d'
  end.

(** [a == b].  Numbers compare by value across [bool], [int] and [float];
    lists compare element by element; mappings compare as sets of items. *)
Fixpoint py_eq (a b : pyval) {struct a} : bool :=
  match a, b with
  | VNone, VNone => true
  | VStr s, VStr t => String.eqb s t
  | VUri u, VUri w => uri_eqb u w
  | VList l, VList m =>
      (fix all2 (l m : list pyval) {struct l} : bool :=
         match l, m with
         | [], [] => true
         | x :: l', y :: m' => py_eq x y && all2 l' m'
         | _, _ => false
         end) l m
  | VDict d, VDict e =>
      (length d =? length e)%nat &&
      (fix items (d : list (string * pyval)) {struct d} : bool :=
         match d with
         | [] => true
         | (k, v) :: d' =>
             match dict_get k e with
             | Some w => py_eq v w
             | None => false
             end && items d'
         end) d
  | _, _ =>
      match as_num a, as_num b with
      | Some x, Some y => num_eq x y
      | _, _ => false
      end
  end.

(** [value in options] for a list or tuple [options], by [==].  Python
    asks first whether [value] is the very object in the list, which the
    values here cannot tell: for a value that equals itself, as every value
    does that has no NaN in it, the answer is the same. *)
Definition py_in (value : pyval) (options : list pyval) : bool :=
  existsb (py_eq value) options.

(** ** Exceptions and results *)

(** What [raise_type] is in the list engine: the text ['dict'] or a class. *)
Inductive raise_type := RDict | RType (t : pytype).

(** One constructor per [raise ConfigurationError(...)] of the source,
    carrying the arguments of its message.

    Modelled from the spec: the class itself is declared in
    [config_manager/exceptions.py], which the source imports and which is
    not part of it.  It is the one error kind of the getters, an exception
    class of its own: [except ValueError] does not catch it. *)
Inductive ConfigurationError :=
| NoValueProvided (key : string)
| NotOneOfPossibleValues (value : pyval) (key : string)
| CannotConvert (value : pyval) (key : string) (target_type : pytype)
| WrongType (key : string) (value : pyval) (target_type : pytype)
| CannotConvertToDict (value : pyval) (key : string)
| CannotConvertList (value : pyval) (key : string) (rt : raise_type)
| CannotConvertListElement (v : pyval) (key : string) (rt : raise_type)
| InvalidUriSpec (uri_spec : string)
| InvalidUriUserPass (uri_spec : string).

Inductive exn :=
| EConfigurationError (e : ConfigurationError)
| EValueError
| EKeyError (key : string)
| ETypeError
| ERecursionError.

Inductive result (A : Type) :=
| Ok (a : A)
| Raise (e : exn).
Arguments Ok {A} a.
Arguments Raise {A} e.

Definition is_ok {A} (r : result A) : bool :=
  match r with Ok _ => true | Raise _ => false end.

Definition is_configuration_error {A} (r : result A) : bool :=
  match r with Raise (EConfigurationError _) => true | _ => false end.

(** ** The platform's string functions

    The converters the getters hand to the engines are functions of the
    Python library.  They are written out here on byte strings, as Python
    3.6 has them, with the white space and the decimal digits of its
    Unicode, which is Unicode 9.0.  Lower case is computed for the letters
    of ASCII: no text with another letter in it has one of the words of
    [strtobool] as its lower case, and [float] compares the names of its
    special values in ASCII. *)

Definition code (c : ascii) : Z := Z.of_N (N_of_ascii c).

Definition byte_of (n : Z) : ascii := ascii_of_N (Z.to_N n).

(** [str.isspace] on the ASCII range. *)
Definition is_space (c : ascii) : bool :=
  let n := code c in
  ((9 <=? n) && (n <=? 13)) || ((28 <=? n) && (n <=? 32)).

(** [Py_ISSPACE], the white space [int] and [float] skip in ASCII: it has
    not the four separators U+001C to U+001F. *)
Definition is_c_space (c : ascii) : bool :=
  let n := code c in
  ((9 <=? n) && (n <=? 13)) || (n =? 32).

(** The white space outside ASCII, by its UTF-8 bytes: U+0085 and U+00A0
    take two bytes; U+1680, U+2000 to U+200A, U+2028, U+2029, U+202F,
    U+205F and U+3000 take three. *)
Definition is_space2 (a b : ascii) : bool :=
  (code a =? 194) && ((code b =? 133) || (code b =? 160)).

Definition is_space3 (a b c : ascii) : bool :=
  ((code a =? 225) && (code b =? 154) && (code c =? 128))
  || ((code a =? 226) && (code b =? 128)
      && (((128 <=? code c) && (code c <=? 138))
          || (code c =? 168) || (code c =? 169) || (code c =? 175)))
  || ((code a =? 226) && (code b =? 129) && (code c =? 159))
  || ((code a =? 227) && (code b =? 128) && (code c =? 128)).

(** Whether [s] is one white space character and nothing else; [space1]
    says which characters of ASCII are white space. *)
Definition is_one_space (space1 : ascii -> bool) (s : string) : bool :=
  match s with
  | String a EmptyString => space1 a
  | String a (String b EmptyString) => is_space2 a b
  | String a (String b (String c EmptyString)) => is_space3 a b c
  | _ => false
  end.

(** Whether [s] starts with a white space character. *)
Definition lead_space (space1 : ascii -> bool) (s : string) : bool :=
  match s with
  | String a r1 =>
      space1 a
      || match r1 with
         | String b r2 =>
             is_space2 a b
             || match r2 with
                | String c _ => is_space3 a b c
                | EmptyString => false
                end
         | EmptyString => false
         end
  | EmptyString => false
  end.

(** The white space characters at the start of [s] removed. *)
Fixpoint lstrip_with (space1 : ascii -> bool) (s : string) : string :=
  match s with
  | String a r1 =>
      if space1 a then lstrip_with space1 r1
      else
        match r1 with
        | String b r2 =>
            if is_space2 a b then lstrip_with space1 r2
            else
              match r2 with
              | String c r3 =>
                  if is_space3 a b c then lstrip_with space1 r3 else s
              | EmptyString => s
              end
        | EmptyString => s
        end
  | EmptyString => EmptyString
  end.

(** The white space characters at the end of [s] removed: what is left of
    the rest, with the first character before it, unless that is one white
    space character and no more. *)
Fixpoint rstrip_with (space1 : ascii -> bool) (s : string) : string :=
  match s with
  | EmptyString => EmptyString
  | String c s' =>
      let t := String c (rstrip_with space1 s') in
      if is_one_space space1 t then EmptyString else t
  end.

Definition lstrip : string -> string := lstrip_with is_space.
Definition rstrip : string -> string := rstrip_with is_space.

(** [s.strip()]. *)
Definition strip (s : string) : string := rstrip (lstrip s).

(** The white space [int] and [float] allow around a number, removed: that
    of [Py_ISSPACE] in ASCII, and every white space outside it. *)
Definition strip_c (s : string) : string :=
  rstrip_with is_c_space (lstrip_with is_c_space s).

Definition lower_ascii (c : ascii) : ascii :=
  let n := code c in
  if (65 <=? n) && (n <=? 90) then ascii_of_N (N_of_ascii c + 32) else c.

(** [s.lower()] (ASCII letters). *)
Fixpoint lower (s : string) : string :=
  match s with
  | EmptyString => EmptyString
  | String c s' => String (lower_ascii c) (lower s')
  end.

(** [s.split(sep)] for a separator of one character: one more part than
    there are separators. *)
Fixpoint split (sep : ascii) (s : string) : list string :=
  match s with
  | EmptyString => [EmptyString]
  | String c s' =>
      if Ascii.eqb c sep then EmptyString :: split sep s'
      else match split sep s' with
           | p :: ps => String c p :: ps
           | [] => [String c EmptyString]
           end
  end.

Fixpoint count_char (sep : ascii) (s : string) : nat :=
  match s with
  | EmptyString => O
  | String c s' => (if Ascii.eqb c sep then 1 else 0) + count_char sep s'
  end.

Definition digit_of (c : ascii) : option Z :=
  let n := code c in
  if (48 <=? n) && (n <=? 57) then Some (n - 48) else None.

Definition is_digit (c : ascii) : bool :=
  match digit_of c with Some _ => true | None => false end.

(** A run of decimal digits in which single underscores may separate
    digits; [fresh] says that a digit must come next. *)
Fixpoint digits_value (acc : Z) (fresh : bool) (s : string) : option Z :=
  match s with
  | EmptyString => if fresh then None else Some acc
  | String c s' =>
      match digit_of c with
      | Some d => digits_value (10 * acc + d) false s'
      | None =>
          if Ascii.eqb c "_" && negb fresh then digits_value acc true s'
          else None
      end
  end.

(** A byte that continues a character in UTF-8. *)
Definition is_cont (c : ascii) : bool := (128 <=? code c) && (code c <? 192).

(** The code points of the digit zero of the scripts outside ASCII; the
    nine code points after each are its digits one to nine. *)
Definition decimal_zeros : list Z :=
  [1632; 1776; 1984; 2406; 2534; 2662; 2790; 2918; 3046; 3174; 3302; 3430;
   3558; 3664; 3792; 3872; 4160; 4240; 6112; 6160; 6470; 6608; 6784; 6800;
   6992; 7088; 7232; 7248; 42528; 43216; 43264; 43472; 43504; 43600; 44016;
   65296; 66720; 69734; 69872; 69942; 70096; 70384; 70736; 70864; 71248;
   71360; 71472; 71904; 72784; 92768; 93008; 120782; 120792; 120802; 120812;
   120822; 125264].

(** [Py_UNICODE_TODECIMAL] outside ASCII. *)
Definition to_decimal (cp : Z) : option Z :=
  match find (fun z => (z <=? cp) && (cp <=? z + 9)) decimal_zeros with
  | Some z => Some (cp - z)
  | None => None
  end.

(** The code point of a character of two, three and four bytes. *)
Definition code_point2 (a b : ascii) : option Z :=
  if (194 <=? code a) && is_cont b
  then Some ((code a - 192) * 64 + (code b - 128))
  else None.

Definition code_point3 (a b c : ascii) : option Z :=
  let cp := ((code a - 224) * 64 + (code b - 128)) * 64 + (code c - 128) in
  if is_cont b && is_cont c && (2048 <=? cp) then Some cp else None.

Definition code_point4 (a b c d : ascii) : option Z :=
  let cp :=
    (((code a - 240) * 64 + (code b - 128)) * 64 + (code c - 128)) * 64
    + (code d - 128) in
  if is_cont b && is_cont c && is_cont d && (65536 <=? cp) && (cp <? 1114112)
  then Some cp else None.

(** What [int] and [float] put for a character outside ASCII: a space for
    white space, its ASCII digit for a decimal digit. *)
Definition ascii_of_decimal_or_space (space : bool) (cp : option Z) : option ascii :=
  if space then Some " "%char
  else
    match cp with
    | Some cp =>
        match to_decimal cp with
        | Some d => Some (byte_of (48 + d))
        | None => None
        end
    | None => None
    end.

(** [_PyUnicode_TransformDecimalAndSpaceToASCII], through which [int] and
    [float] read a [str]: the characters of ASCII stay, white space outside
    ASCII becomes a space and a decimal digit its ASCII digit; at any other
    character the text ends with a question mark. *)
Fixpoint transform_decimal_and_space_to_ascii (s : string) : string :=
  match s with
  | EmptyString => EmptyString
  | String a r1 =>
      if code a <? 128 then String a (transform_decimal_and_space_to_ascii r1)
      else
        let put (x : option ascii) (rest : string) :=
          match x with
          | Some c => String c rest
          | None => "?"
          end in
        match r1 with
        | String b r2 =>
            if code a <? 224 then
              put (ascii_of_decimal_or_space (is_space2 a b) (code_point2 a b))
                (transform_decimal_and_space_to_ascii r2)
            else
              match r2 with
              | String c r3 =>
                  if code a <? 240 then
                    put (ascii_of_decimal_or_space (is_space3 a b c)
                           (code_point3 a b c))
                      (transform_decimal_and_space_to_ascii r3)
                  else
                    match r3 with
                    | String d r4 =>
                        put (ascii_of_decimal_or_space false (code_point4 a b c d))
                          (transform_decimal_and_space_to_ascii r4)
                    | EmptyString => "?"
                    end
              | EmptyString => "?"
              end
        | EmptyString => "?"
        end
  end.

(** [int(s)] for a [str]: surrounding white space, a sign, decimal digits
    with single underscores between them; anything else is a
    [ValueError]. *)
Definition py_int (s : string) : result pyval :=
  let t := strip_c (transform_decimal_and_space_to_ascii s) in
  let '(neg, body) :=
    match t with
    | String "-" r => (true, r)
    | String "+" r => (false, r)
    | _ => (false, t)
    end in
  match digits_value 0 true body with
  | Some n => Ok (VInt (if neg then - n else n))
  | None => Raise EValueError
  end.

(** [distutils.util.strtobool]. *)
Definition strtobool (val : string) : result Z :=
  let val := lower val in
  if existsb (String.eqb val) ["y"; "yes"; "t"; "true"; "on"; "1"] then Ok 1
  else if existsb (String.eqb val) ["n"; "no"; "f"; "false"; "off"; "0"] then Ok 0
  else Raise EValueError.

(** [str(s)] for a [str]. *)
Definition py_str (s : string) : result pyval := Ok (VStr s).

(** *** [float(s)] *)

(** The binary64 nearest to [m * 10 ^ e], ties to even.  For a negative
    exponent the quotient is taken with more than 64 significant bits and a
    sticky bit, which rounds as the exact quotient does. *)
Definition float_of_decimal (neg : bool) (m e : Z) : spec_float :=
  if m =? 0 then S754_zero neg
  else
    let sgn x := if neg then - x else x in
    if 0 <=? e then binary_normalize prec64 emax64 (sgn (m * 10 ^ e)) 0 false
    else
      let d := 10 ^ (- e) in
      let s := Z.max 0 (Z.log2 d + 66 - Z.log2 m) in
      let q := (m * 2 ^ s) / d in
      let r := (m * 2 ^ s) mod d in
      let mant := 2 * q + (if r =? 0 then 0 else 1) in
      binary_normalize prec64 emax64 (sgn mant) (- s - 1) false.

(** Splits a leading digit run (digits and inner underscores) from [s]. *)
Fixpoint span_digits (s : string) : string * string :=
  match s with
  | String c s' =>
      if is_digit c || Ascii.eqb c "_" then
        let '(a, b) := span_digits s' in (String c a, b)
      else (EmptyString, s)
  | EmptyString => (EmptyString, EmptyString)
  end.

Fixpoint strip_underscores (s : string) : string :=
  match s with
  | String c s' =>
      if Ascii.eqb c "_" then strip_underscores s' else String c (strip_underscores s')
  | EmptyString => EmptyString
  end.

Definition signed (s : string) : bool * string :=
  match s with
  | String "-" r => (true, r)
  | String "+" r => (false, r)
  | _ => (false, s)
  end.

(** [float(s)] for a [str]: white space, a sign, then [inf], [infinity],
    [nan], or a decimal literal with optional fraction and exponent. *)
Definition py_float_value (s : string) : option spec_float :=
  let '(neg, body) := signed (strip_c (transform_decimal_and_space_to_ascii s)) in
  let low := lower body in
  if String.eqb low "inf" || String.eqb low "infinity" then Some (S754_infinity neg)
  else if String.eqb low "nan" then Some S754_nan
  else
    let '(ip, rest) := span_digits body in
    let '(fp, rest) :=
      match rest with
      | String "." r => span_digits r
      | _ => (EmptyString, rest)
      end in
    let ipv := if String.eqb ip "" then Some 0 else digits_value 0 true ip in
    let fpv := if String.eqb fp "" then Some 0 else digits_value 0 true fp in
    let ex :=
      match rest with
      | EmptyString => Some 0
      | String c r =>
          if Ascii.eqb (lower_ascii c) "e" then
            let '(eneg, ed) := signed r in
            match digits_value 0 true ed with
            | Some n => Some (if eneg then - n else n)
            | None => None
            end
          else None
      end in
    if String.eqb ip "" && String.eqb fp "" then None
    else
      match ipv, fpv, ex with
      | Some i, Some f, Some x =>
          let nfrac := Z.of_nat (String.length (strip_underscores fp)) in
          Some (float_of_decimal neg (i * 10 ^ nfrac + f) (x - nfrac))
      | _, _, _ => None
      end.

Definition py_float (s : string) : result pyval :=
  match py_float_value s with
  | Some f => Ok (VFloat f)
  | None => Raise EValueError
  end.

(** *** [json.loads] *)

Definition dquote : ascii := ascii_of_N 34.
Definition backslash : ascii := ascii_of_N 92.

(** The string of one double quote, to write JSON texts with. *)
Definition q : string := String dquote EmptyString.

(** The white space of a JSON text: space, tab, line feed, carriage return. *)
Definition is_json_ws (c : ascii) : bool :=
  let n := code c in
  (n =? 32) || (n =? 9) || (n =? 10) || (n =? 13).

Fixpoint skip_ws (s : string) : string :=
  match s with
  | String c s' => if is_json_ws c then skip_ws s' else s
  | EmptyString => EmptyString
  end.

Definition hex_of (c : ascii) : option Z :=
  let n := code c in
  if (48 <=? n) && (n <=? 57) then Some (n - 48)
  else if (97 <=? n) && (n <=? 102) then Some (n - 87)
  else if (65 <=? n) && (n <=? 70) then Some (n - 55)
  else None.

(** Four hexadecimal digits, as after [\u]. *)
Definition hex4 (s : string) : option (Z * string) :=
  match s with
  | String a (String b (String c (String d r))) =>
      match hex_of a, hex_of b, hex_of c, hex_of d with
      | Some x, Some y, Some z, Some w => Some (((x * 16 + y) * 16 + z) * 16 + w, r)
      | _, _, _, _ => None
      end
  | _ => None
  end.

(** The UTF-8 bytes of a code point. *)
Definition utf8_encode (cp : Z) : string :=
  if cp <? 128 then String (byte_of cp) EmptyString
  else if cp <? 2048 then
    String (byte_of (192 + cp / 64)) (String (byte_of (128 + cp mod 64)) EmptyString)
  else if cp <? 65536 then
    String (byte_of (224 + cp / 4096))
      (String (byte_of (128 + (cp / 64) mod 64))
         (String (byte_of (128 + cp mod 64)) EmptyString))
  else
    String (byte_of (240 + cp / 262144))
      (String (byte_of (128 + (cp / 4096) mod 64))
         (String (byte_of (128 + (cp / 64) mod 64))
            (String (byte_of (128 + cp mod 64)) EmptyString))).

(** [scanstring], from after the opening quote: the decoded string and what
    follows the closing quote.  Control characters and unknown escapes are
    errors; a high surrogate followed by a low one is one code point. *)
Fixpoint scanstring (fuel : nat) (s : string) : option (string * string) :=
  match fuel with
  | O => None
  | S fuel =>
      match s with
      | EmptyString => None
      | String c r =>
          if Ascii.eqb c dquote then Some (EmptyString, r)
          else if Ascii.eqb c backslash then
            match r with
            | EmptyString => None
            | String e r' =>
                let simple (x : Z) :=
                  match scanstring fuel r' with
                  | Some (t, r'') => Some (String (byte_of x) t, r'')
                  | None => None
                  end in
                let n := code e in
                if n =? 34 then simple 34
                else if n =? 92 then simple 92
                else if n =? 47 then simple 47
                else if n =? 98 then simple 8
                else if n =? 102 then simple 12
                else if n =? 110 then simple 10
                else if n =? 114 then simple 13
                else if n =? 116 then simple 9
                else if n =? 117 then
                  match hex4 r' with
                  | None => None
                  | Some (uni, r'') =>
                      let '(cp, rest) :=
                        if (55296 <=? uni) && (uni <=? 56319) then
                          match r'' with
                          | String b (String u r3) =>
                              if Ascii.eqb b backslash && (code u =? 117) then
                                match hex4 r3 with
                                | Some (uni2, r4) =>
                                    if (56320 <=? uni2) && (uni2 <=? 57343)
                                    then (65536 + (uni - 55296) * 1024 + (uni2 - 56320), r4)
                                    else (uni, r'')
                                | None => (uni, r'')
                                end
                              else (uni, r'')
                          | _ => (uni, r'')
                          end
                        else (uni, r'') in
                      match scanstring fuel rest with
                      | Some (t, r5) => Some (utf8_encode cp ++ t, r5)
                      | None => None
                      end
                  end
                else None
            end
          else if code c <? 32 then None
          else
            match scanstring fuel r with
            | Some (t, r') => Some (String c t, r')
            | None => None
            end
      end
  end.

(** Splits the leading decimal digits from [s]. *)
Fixpoint span_decimal (s : string) : string * string :=
  match s with
  | String c s' =>
      if is_digit c then let '(a, b) := span_decimal s' in (String c a, b)
      else (EmptyString, s)
  | EmptyString => (EmptyString, EmptyString)
  end.

(** The number pattern of the scanner: an optional minus sign, then [0] or
    digits that do not start with [0]; optionally a point and digits;
    optionally [e] or [E], a sign and digits.  The value is an [int] when
    there is neither fraction nor exponent, [float] of the matched text
    otherwise. *)
Definition scan_number (s : string) : option (pyval * string) :=
  let '(sign, body) :=
    match s with
    | String "-" r => ("-", r)
    | _ => (EmptyString, s)
    end in
  let integer_rest :=
    match body with
    | String "0" r => Some ("0", r)
    | String c _ =>
        if is_digit c then Some (span_decimal body) else None
    | EmptyString => None
    end in
  match integer_rest with
  | None => None
  | Some (integer, rest) =>
      let '(frac, rest) :=
        match rest with
        | String "." r =>
            let '(ds, r') := span_decimal r in
            if String.eqb ds "" then (EmptyString, rest) else (String "." ds, r')
        | _ => (EmptyString, rest)
        end in
      let '(exp, rest) :=
        match rest with
        | String c r =>
            if Ascii.eqb (lower_ascii c) "e" then
              let '(sg, r1) :=
                match r with
                | String "-" r1 => ("-", r1)
                | String "+" r1 => ("+", r1)
                | _ => (EmptyString, r)
                end in
              let '(ds, r2) := span_decimal r1 in
              if String.eqb ds "" then (EmptyString, rest)
              else (String c (sg ++ ds), r2)
            else (EmptyString, rest)
        | EmptyString => (EmptyString, rest)
        end in
      let res :=
        if String.eqb frac "" && String.eqb exp ""
        then py_int (sign ++ integer)
        else py_float (sign ++ integer ++ frac ++ exp) in
      match res with
      | Ok v => Some (v, rest)
      | Raise _ => None
      end
  end.

(** [prefix p s]: what follows [p] in [s], when [s] starts with [p]. *)
Fixpoint strip_prefix (p s : string) : option string :=
  match p, s with
  | EmptyString, _ => Some s
  | String a p', String b s' => if Ascii.eqb a b then strip_prefix p' s' else None
  | _, _ => None
  end.

(** [d[k] = v] on an insertion-ordered mapping. *)
Fixpoint dict_set (k : string) (v : pyval) (d : list (string * pyval))
  : list (string * pyval) :=
  match d with
  | [] => [(k, v)]
  | (k', v') :: d' =>
      if String.eqb k k' then (k, v) :: d' else (k', v') :: dict_set k v d'
  end.

Definition dict_of_pairs (pairs : list (string * pyval)) : list (string * pyval) :=
  fold_left (fun d kv => dict_set (fst kv) (snd kv) d) pairs [].

Definition scan_literal (s : string) : option (pyval * string) :=
  match strip_prefix "null" s with Some r => Some (VNone, r) | None =>
  match strip_prefix "true" s with Some r => Some (VBool true, r) | None =>
  match strip_prefix "false" s with Some r => Some (VBool false, r) | None =>
  match scan_number s with Some vr => Some vr | None =>
  match strip_prefix "NaN" s with Some r => Some (VFloat S754_nan, r) | None =>
  match strip_prefix "Infinity" s with Some r => Some (VFloat (S754_infinity false), r) | None =>
  match strip_prefix "-Infinity" s with Some r => Some (VFloat (S754_infinity true), r) | None =>
  None
  end end end end end end end.

(** What a scan comes to: a value and the text after it, a text that is
    not JSON, or a nesting deeper than the interpreter follows. *)
Inductive scanned :=
| Scanned (value : pyval) (rest : string)
| Malformed
| TooDeep.

(** How many arrays and objects, one inside the other, the scanner enters
    before the interpreter's recursion limit stops it.  The number depends
    on the limit and on the calls in progress when [json.loads] is called;
    it is the default limit here. *)
Definition recursion_budget : nat := 1000.

(** [scan_once] with the loops of [JSONArray] and [JSONObject].  Entering an
    array or an object takes one of the [depth] that is left.  Every call
    has read a character since the call before the last, so twice the
    length of the text bounds the calls. *)
Fixpoint scan_once (fuel depth : nat) (s : string) {struct fuel} : scanned :=
  match fuel with
  | O => Malformed
  | S fuel =>
      match s with
      | EmptyString => Malformed
      | String c r =>
          if Ascii.eqb c dquote then
            match scanstring (S (String.length r)) r with
            | Some (t, r') => Scanned (VStr t) r'
            | None => Malformed
            end
          else if Ascii.eqb c "{" then
            match depth with
            | O => TooDeep
            | S depth =>
                match skip_ws r with
                | String c' r' =>
                    if Ascii.eqb c' "}" then Scanned (VDict []) r'
                    else if Ascii.eqb c' dquote then object_loop fuel depth [] r'
                    else Malformed
                | EmptyString => Malformed
                end
            end
          else if Ascii.eqb c "[" then
            match depth with
            | O => TooDeep
            | S depth =>
                match skip_ws r with
                | String "]" r' => Scanned (VList []) r'
                | r' => array_loop fuel depth [] r'
                end
            end
          else
            match scan_literal s with
            | Some (value, r') => Scanned value r'
            | None => Malformed
            end
      end
  end
with array_loop (fuel depth : nat) (values : list pyval) (s : string) {struct fuel}
  : scanned :=
  match fuel with
  | O => Malformed
  | S fuel =>
      match scan_once fuel depth s with
      | Scanned value r =>
          match skip_ws r with
          | String "]" r' => Scanned (VList (rev (value :: values))) r'
          | String "," r' => array_loop fuel depth (value :: values) (skip_ws r')
          | _ => Malformed
          end
      | failed => failed
      end
  end
with object_loop (fuel depth : nat) (pairs : list (string * pyval)) (s : string)
  {struct fuel} : scanned :=
  match fuel with
  | O => Malformed
  | S fuel =>
      match scanstring (S (String.length s)) s with
      | None => Malformed
      | Some (key, r) =>
          match skip_ws r with
          | String ":" r1 =>
              match scan_once fuel depth (skip_ws r1) with
              | Scanned value r2 =>
                  match skip_ws r2 with
                  | String "}" r3 =>
                      Scanned (VDict (dict_of_pairs (rev ((key, value) :: pairs)))) r3
                  | String "," r3 =>
                      match skip_ws r3 with
                      | String c r4 =>
                          if Ascii.eqb c dquote
                          then object_loop fuel depth ((key, value) :: pairs) r4
                          else Malformed
                      | EmptyString => Malformed
                      end
                  | _ => Malformed
                  end
              | failed => failed
              end
          | _ => Malformed
          end
      end
  end.

(** [json.loads(s)]; a [JSONDecodeError] is a [ValueError], a
    [RecursionError] is not. *)
Definition json_loads (s : string) : result pyval :=
  match scan_once (2 * String.length s + 2) recursion_budget (skip_ws s) with
  | Scanned obj r =>
      match skip_ws r with
      | EmptyString => Ok obj
      | _ => Raise EValueError
      end
  | Malformed => Raise EValueError
  | TooDeep => Raise ERecursionError
  end.

(** *** [base64] and UTF-8 *)

(** The value of a character of the base64 alphabet. *)
Definition b64_value (c : ascii) : option Z :=
  let n := code c in
  if (65 <=? n) && (n <=? 90) then Some (n - 65)
  else if (97 <=? n) && (n <=? 122) then Some (n - 71)
  else if (48 <=? n) && (n <=? 57) then Some (n + 4)
  else if n =? 43 then Some 62
  else if n =? 47 then Some 63
  else None.

Definition b64_char (v : Z) : ascii :=
  if v <? 26 then byte_of (v + 65)
  else if v <? 52 then byte_of (v + 71)
  else if v <? 62 then byte_of (v - 4)
  else if v =? 62 then "+"%char
  else "/"%char.

(** Whether the first character of [s] that is a pad or of the alphabet is
    a pad. *)
Fixpoint next_valid_is_pad (s : string) : bool :=
  match s with
  | EmptyString => false
  | String c r =>
      if Ascii.eqb c "=" then true
      else match b64_value c with
           | Some _ => false
           | None => next_valid_is_pad r
           end
  end.

(** [binascii.a2b_base64], permissive as [base64.b64decode] calls it:
    characters outside the alphabet are skipped, a pad ends the input once
    the current group of four has its data, and bits left over at the end
    are an error ([Incorrect padding]). *)
Fixpoint a2b_base64 (s : string) (quad_pos leftchar leftbits : Z) : option string :=
  match s with
  | EmptyString => if leftbits =? 0 then Some EmptyString else None
  | String c r =>
      if Ascii.eqb c "=" then
        if (quad_pos <? 2) || ((quad_pos =? 2) && negb (next_valid_is_pad r))
        then a2b_base64 r quad_pos leftchar leftbits
        else Some EmptyString
      else
        match b64_value c with
        | None => a2b_base64 r quad_pos leftchar leftbits
        | Some v =>
            let quad_pos := (quad_pos + 1) mod 4 in
            let leftchar := leftchar * 64 + v in
            let leftbits := leftbits + 6 in
            if 8 <=? leftbits then
              let leftbits := leftbits - 8 in
              match a2b_base64 r quad_pos (leftchar mod 2 ^ leftbits) leftbits with
              | Some out => Some (String (byte_of ((leftchar / 2 ^ leftbits) mod 256)) out)
              | None => None
              end
            else a2b_base64 r quad_pos leftchar leftbits
        end
  end.

Definition is_ascii (s : string) : bool :=
  forallb (fun c => code c <? 128) (list_ascii_of_string s).

(** [base64.b64decode(s)] for a [str]: a [ValueError] when [s] is not ASCII
    or is badly padded. *)
Definition b64decode (s : string) : result string :=
  if is_ascii s then
    match a2b_base64 s 0 0 0 with
    | Some out => Ok out
    | None => Raise EValueError
    end
  else Raise EValueError.

(** [base64.b64encode]. *)
Fixpoint b64encode (s : string) : string :=
  match s with
  | EmptyString => EmptyString
  | String a EmptyString =>
      let x := code a in
      String (b64_char (x / 4)) (String (b64_char ((x mod 4) * 16)) "==")
  | String a (String b EmptyString) =>
      let x := code a * 256 + code b in
      String (b64_char (x / 1024))
        (String (b64_char ((x / 16) mod 64)) (String (b64_char ((x mod 16) * 4)) "="))
  | String a (String b (String c r)) =>
      let x := (code a * 256 + code b) * 256 + code c in
      String (b64_char (x / 262144))
        (String (b64_char ((x / 4096) mod 64))
           (String (b64_char ((x / 64) mod 64))
              (String (b64_char (x mod 64)) (b64encode r))))
  end.

(** Whether a byte sequence is well-formed UTF-8: shortest forms only, no
    surrogates, nothing above U+10FFFF. *)
Fixpoint utf8_valid (fuel : nat) (s : string) : bool :=
  match fuel with
  | O => false
  | S fuel =>
      match s with
      | EmptyString => true
      | String a r =>
          let x := code a in
          if x <? 128 then utf8_valid fuel r
          else if (194 <=? x) && (x <? 224) then
            match r with
            | String b r' => is_cont b && utf8_valid fuel r'
            | _ => false
            end
          else if (224 <=? x) && (x <? 240) then
            match r with
            | String b (String c r') =>
                is_cont b && is_cont c
                && (if x =? 224 then 160 <=? code b else true)
                && (if x =? 237 then code b <? 160 else true)
                && utf8_valid fuel r'
            | _ => false
            end
          else if (240 <=? x) && (x <? 245) then
            match r with
            | String b (String c (String d r')) =>
                is_cont b && is_cont c && is_cont d
                && (if x =? 240 then 144 <=? code b else true)
                && (if x =? 244 then code b <? 144 else true)
                && utf8_valid fuel r'
            | _ => false
            end
          else false
      end
  end.

(** [b.decode('utf-8')]: the same bytes, or a [UnicodeDecodeError], which is
    a [ValueError]. *)
Definition decode_utf8 (b : string) : result string :=
  if utf8_valid (S (String.length b)) b then Ok b else Raise EValueError.

(** ** The instance and its methods *)

(** The attributes [__init__] sets, and the slot in which [cached_property]
    keeps [decode_iterations] once it has been computed. *)
Record ConfigManager := mkConfigManager {
  _params : gmap string pyval;
  _requested_keys : gset string;
  _secret_keys : gset string;
  _local_keys : gset string;
  decode_iterations_cache : option pyval
}.

(** [__init__]: the keyword arguments become [_params]. *)
Definition init (params : gmap string pyval) : ConfigManager :=
  {| _params := params;
     _requested_keys := ∅;
     _secret_keys := ∅;
     _local_keys := ∅;
     decode_iterations_cache := None |}.

(** A method: from the instance to what it returns or raises, and the
    instance afterwards.  What a method did to the instance before it raised
    stays done. *)
Definition M (A : Type) : Type := ConfigManager -> result A * ConfigManager.

Definition ret {A} (a : A) : M A := fun self => (Ok a, self).

Definition raise {A} (e : exn) : M A := fun self => (Raise e, self).

Definition bind {A B} (c : M A) (k : A -> M B) : M B :=
  fun self =>
    match c self with
    | (Ok a, self') => k a self'
    | (Raise e, self') => (Raise e, self')
    end.

Definition lift {A} (r : result A) : M A := fun self => (r, self).

Notation "'let*' x ':=' c 'in' k" := (bind c (fun x => k))
  (at level 10, x pattern, c at level 100, k at level 200).

Definition is_ValueError (e : exn) : bool :=
  match e with EValueError => true | _ => false end.

Definition is_KeyError (e : exn) : bool :=
  match e with EKeyError _ => true | _ => false end.

(** [try: body except E: handler], [catches] saying which exceptions are
    an [E]. *)
Definition try_except {A} (body : M A) (catches : exn -> bool) (handler : M A) : M A :=
  fun self =>
    match body self with
    | (Raise e, self') => if catches e then handler self' else (Raise e, self')
    | r => r
    end.

(** [options], [None] or a list or tuple, as a truth value and as the
    right-hand side of [in]. *)
Definition options_truthy (options : option (list pyval)) : bool :=
  match options with
  | Some (_ :: _) => true
  | _ => false
  end.

Definition value_in (value : pyval) (options : option (list pyval)) : bool :=
  match options with
  | Some l => py_in value l
  | None => false
  end.

Definition _get (key : string) : M pyval :=
  fun self =>
    match _params self !! key with
    | Some value => (Ok value, self)
    | None => (Raise (EKeyError key), self)
    end.

Definition _add_key (key : string) (is_secret is_local : bool) : M unit :=
  fun self =>
    (Ok tt,
     {| _params := _params self;
        _requested_keys := {[key]} ∪ _requested_keys self;
        _secret_keys :=
          if is_secret then {[key]} ∪ _secret_keys self else _secret_keys self;
        _local_keys :=
          if is_local then {[key]} ∪ _local_keys self else _local_keys self;
        decode_iterations_cache := decode_iterations_cache self |}).

Definition _check_options (key : string) (value : pyval)
    (options : option (list pyval)) : M unit :=
  if options_truthy options && negb (value_in value options)
  then raise (EConfigurationError (NotOneOfPossibleValues value key))
  else ret tt.

(** The single-value engine.  [type_convert] is only ever applied to a
    [str]. *)
Definition _get_typed_value (key : string) (target_type : pytype)
    (type_convert : string -> result pyval)
    (is_optional is_secret is_local : bool) (default : pyval)
    (options : option (list pyval)) : M pyval :=
  let* found :=
    try_except (let* value := _get key in ret (Some value))
      is_KeyError (ret None) in
  match found with
  | None =>
      if negb is_optional
      then raise (EConfigurationError (NoValueProvided key))
      else ret default
  | Some value =>
      match value with
      | VStr s =>
          try_except
            (let* _ := _add_key key is_secret is_local in
             let* _ := _check_options key value options in
             lift (type_convert s))
            is_ValueError
            (raise (EConfigurationError (CannotConvert value key target_type)))
      | _ =>
          if isinstance value target_type then
            let* _ := _add_key key is_secret is_local in
            let* _ := _check_options key value options in
            ret value
          else raise (EConfigurationError (WrongType key value target_type))
      end
  end.

Definition raise_type_of (target_type : pytype) : raise_type :=
  if pytype_eqb target_type TMapping then RDict else RType target_type.

(** The body of [for v in value] in the list engine, for one element. *)
Definition convert_element (key : string) (target_type : pytype)
    (type_convert : string -> result pyval) (v : pyval) : result pyval :=
  match v with
  | VStr s =>
      match type_convert s with
      | Raise EValueError =>
          Raise (EConfigurationError
                   (CannotConvertListElement v key (raise_type_of target_type)))
      | r => r
      end
  | _ =>
      if isinstance v target_type then Ok v
      else Raise (EConfigurationError
                    (CannotConvertListElement v key (raise_type_of target_type)))
  end.

(** The loop of the list engine: the converted elements in order, or what
    the first failing element raises. *)
Fixpoint convert_elements (key : string) (target_type : pytype)
    (type_convert : string -> result pyval) (value : list pyval)
  : result (list pyval) :=
  match value with
  | [] => Ok []
  | v :: rest =>
      match convert_element key target_type type_convert v with
      | Raise e => Raise e
      | Ok x =>
          match convert_elements key target_type type_convert rest with
          | Raise e => Raise e
          | Ok xs => Ok (x :: xs)
          end
      end
  end.

(** The list engine. *)
Definition _get_typed_list_value (key : string) (target_type : pytype)
    (type_convert : string -> result pyval)
    (is_optional is_secret is_local : bool) (default : pyval)
    (options : option (list pyval)) : M pyval :=
  let* value :=
    _get_typed_value key Tlist json_loads
      is_optional is_secret is_local default options in
  if negb (truthy value) then ret default
  else
    match value with
    | VList l =>
        match convert_elements key target_type type_convert l with
        | Ok result => ret (VList result)
        | Raise e => raise e
        end
    | _ =>
        raise (EConfigurationError
                 (CannotConvertList value key (raise_type_of target_type)))
    end.

(** [parse_uri_spec]: it does not use the instance. *)
Definition parse_uri_spec (uri_spec : string) : result pyval :=
  match split "@" uri_spec with
  | [user_pass; host] =>
      match split ":" user_pass with
      | [user; password] =>
          Ok (VUri {| user := user; password := password; host := host |})
      | _ => Raise (EConfigurationError (InvalidUriUserPass uri_spec))
      end
  | _ => Raise (EConfigurationError (InvalidUriSpec uri_spec))
  end.

(** The text of the two messages of [parse_uri_spec]; the source has no
    space between the two sentences of the second. *)
Definition uri_error_message (e : ConfigurationError) : option string :=
  match e with
  | InvalidUriSpec uri_spec =>
      Some ("Received invalid uri_spec `" ++ uri_spec ++ "`. "
            ++ "The uri must be in the format `user:pass@host`")
  | InvalidUriUserPass uri_spec =>
      Some ("Received invalid uri_spec `" ++ uri_spec
            ++ "`. `user:host` is not conform."
            ++ "The uri must be in the format `user:pass@host`")
  | _ => None
  end.

(** [lambda x: bool(strtobool(x))]. *)
Definition convert_bool (x : string) : result pyval :=
  match strtobool x with
  | Ok n => Ok (VBool (negb (n =? 0)))
  | Raise e => Raise e
  end.

(** The local function of [get_dict]. *)
Definition convert_to_dict (key : string) (x : string) : result pyval :=
  match json_loads x with
  | Ok x => if isinstance x TMapping then Ok x else Raise EValueError
  | Raise e => Raise e
  end.

(** The local function of [get_list]. *)
Definition parse_list (v : string) : result pyval :=
  let parts := split "," v in
  Ok (VList (map VStr (filter (fun part => negb (String.eqb part ""))
                         (map strip parts)))).

Definition get_int (key : string) (is_list is_optional is_secret is_local : bool)
    (default : pyval) (options : option (list pyval)) : M pyval :=
  if is_list then
    _get_typed_list_value key Tint py_int
      is_optional is_secret is_local default options
  else
    _get_typed_value key Tint py_int
      is_optional is_secret is_local default options.

Definition get_float (key : string) (is_list is_optional is_secret is_local : bool)
    (default : pyval) (options : option (list pyval)) : M pyval :=
  if is_list then
    _get_typed_list_value key Tfloat py_float
      is_optional is_secret is_local default options
  else
    _get_typed_value key Tfloat py_float
      is_optional is_secret is_local default options.

Definition get_boolean (key : string) (is_list is_optional is_secret is_local : bool)
    (default : pyval) (options : option (list pyval)) : M pyval :=
  if is_list then
    _get_typed_list_value key Tbool convert_bool
      is_optional is_secret is_local default options
  else
    _get_typed_value key Tbool convert_bool
      is_optional is_secret is_local default options.

Definition get_string (key : string) (is_list is_optional is_secret is_local : bool)
    (default : pyval) (options : option (list pyval)) : M pyval :=
  if is_list then
    _get_typed_list_value key Tstr py_str
      is_optional is_secret is_local default options
  else
    _get_typed_value key Tstr py_str
      is_optional is_secret is_local default options.

Definition get_dict (key : string) (is_list is_optional is_secret is_local : bool)
    (default : pyval) (options : option (list pyval)) : M pyval :=
  if is_list then
    _get_typed_list_value key TMapping (convert_to_dict key)
      is_optional is_secret is_local default options
  else
    let* value :=
      _get_typed_value key TMapping (convert_to_dict key)
        is_optional is_secret is_local default options in
    if negb (truthy value) then ret default
    else if negb (isinstance value TMapping)
    then raise (EConfigurationError (CannotConvertToDict value key))
    else ret value.

Definition get_uri (key : string) (is_list is_optional is_secret is_local : bool)
    (default : pyval) (options : option (list pyval)) : M pyval :=
  if is_list then
    _get_typed_list_value key TUriSpec parse_uri_spec
      is_optional is_secret is_local default options
  else
    _get_typed_value key TUriSpec parse_uri_spec
      is_optional is_secret is_local default options.

Definition get_list (key : string) (is_optional is_secret is_local : bool)
    (default : pyval) (options : option (list pyval)) : M pyval :=
  _get_typed_value key Tlist parse_list
    is_optional is_secret is_local default options.



(** [decode_iterations], a [cached_property]: computed by [get_int] at the
    first access that does not raise, and kept. *)
Definition decode_iterations : M pyval :=
  fun self =>
    match decode_iterations_cache self with
    | Some v => (Ok v, self)
    | None =>
        match get_int "_POLYAXON_DECODE_ITERATION" false true false false
                (VInt 1) None self with
        | (Ok v, self') =>
            (Ok v,
             {| _params := _params self';
                _requested_keys := _requested_keys self';
                _secret_keys := _secret_keys self';
                _local_keys := _local_keys self';
                decode_iterations_cache := Some v |})
        | r => r
        end
    end.

(** [_encode]. *)
Definition _encode (value : string) : string := b64encode value.

(** [_decode_once], on the current [value]. *)
Definition _decode_once (value : string) : result string :=
  match b64decode value with
  | Ok b => decode_utf8 b
  | Raise e => Raise e
  end.

(** [for _ in range(n): value = _decode_once()]. *)
Fixpoint decode_loop (n : nat) (value : string) : result string :=
  match n with
  | O => Ok value
  | S n =>
      match _decode_once value with
      | Ok value => decode_loop n value
      | Raise e => Raise e
      end
  end.

(** The length of [range(iteration)]; what is not an integer is a
    [TypeError]. *)
Definition range_length (iteration : pyval) : result nat :=
  match iteration with
  | VInt z => Ok (Z.to_nat z)
  | VBool b => Ok (if b then 1%nat else 0%nat)
  | _ => Raise ETypeError
  end.

(** [_decode(value, iteration=3)]; [iteration] is [None] here when the
    caller leaves the argument out. *)
Definition _decode (value : string) (iteration : option pyval) : M string :=
  let iteration := match iteration with Some i => i | None => VInt 3 end in
  let* iteration :=
    (if truthy iteration then ret iteration else decode_iterations) in
  let* n := lift (range_length iteration) in
  lift (decode_loop n value).

(** ** Calls *)

Inductive getter := GetInt | GetFloat | GetBoolean | GetString | GetDict | GetUri.

(** A call of a typed getter with its arguments; [get_list] has no
    [is_list]. *)
Inductive call :=
| Call (g : getter) (key : string) (is_list is_optional is_secret is_local : bool)
       (default : pyval) (options : option (list pyval))
| CallGetList (key : string) (is_optional is_secret is_local : bool)
       (default : pyval) (options : option (list pyval)).

Definition getter_method (g : getter) :=
  match g with
  | GetInt => get_int
  | GetFloat => get_float
  | GetBoolean => get_boolean
  | GetString => get_string
  | GetDict => get_dict
  | GetUri => get_uri
  end.

Definition run_call (c : call) : M pyval :=
  match c with
  | Call g key is_list is_optional is_secret is_local default options =>
      getter_method g key is_list is_optional is_secret is_local default options
  | CallGetList key is_optional is_secret is_local default options =>
      get_list key is_optional is_secret is_local default options
  end.

(** The instance after a sequence of calls, whatever each returned or
    raised. *)
Fixpoint run_calls (cs : list call) (self : ConfigManager) : ConfigManager :=
  match cs with
  | [] => self
  | c :: cs => run_calls cs (snd (run_call c self))
  end.

Definition call_key (c : call) : string :=
  match c with
  | Call _ key _ _ _ _ _ _ => key
  | CallGetList key _ _ _ _ _ => key
  end.

Definition call_is_list (c : call) : bool :=
  match c with
  | Call _ _ is_list _ _ _ _ _ => is_list
  | CallGetList _ _ _ _ _ _ => false
  end.

Definition call_is_optional (c : call) : bool :=
  match c with
  | Call _ _ _ is_optional _ _ _ _ => is_optional
  | CallGetList _ is_optional _ _ _ _ => is_optional
  end.

Definition call_is_secret (c : call) : bool :=
  match c with
  | Call _ _ _ _ is_secret _ _ _ => is_secret
  | CallGetList _ _ is_secret _ _ _ => is_secret
  end.

Definition call_is_local (c : call) : bool :=
  match c with
  | Call _ _ _ _ _ is_local _ _ => is_local
  | CallGetList _ _ _ is_local _ _ => is_local
  end.

Definition call_default (c : call) : pyval :=
  match c with
  | Call _ _ _ _ _ _ default _ => default
  | CallGetList _ _ _ _ default _ => default
  end.

Definition call_options (c : call) : option (list pyval) :=
  match c with
  | Call _ _ _ _ _ _ _ options => options
  | CallGetList _ _ _ _ _ options => options
  end.

(** The [target_type] and [type_convert] a getter passes on. *)
Definition getter_type (g : getter) : pytype :=
  match g with
  | GetInt => Tint
  | GetFloat => Tfloat
  | GetBoolean => Tbool
  | GetString => Tstr
  | GetDict => TMapping
  | GetUri => TUriSpec
  end.

Definition getter_convert (g : getter) (key : string) : string -> result pyval :=
  match g with
  | GetInt => py_int
  | GetFloat => py_float
  | GetBoolean => convert_bool
  | GetString => py_str
  | GetDict => convert_to_dict key
  | GetUri => parse_uri_spec
  end.

(** The [target_type] with which a call reaches the single-value engine:
    [list] for the list forms and for [get_list]. *)
Definition fetch_type (c : call) : pytype :=
  match c with
  | Call g _ is_list _ _ _ _ _ => if is_list then Tlist else getter_type g
  | CallGetList _ _ _ _ _ _ => Tlist
  end.

(** The converter with which a call reaches the single-value engine. *)
Definition fetch_convert (c : call) : string -> result pyval :=
  match c with
  | Call g key is_list _ _ _ _ _ => if is_list then json_loads else getter_convert g key
  | CallGetList _ _ _ _ _ _ => parse_list
  end.

(** The fetch a call starts with. *)
Definition fetch (c : call) : M pyval :=
  _get_typed_value (call_key c) (fetch_type c) (fetch_convert c)
    (call_is_optional c) (call_is_secret c) (call_is_local c)
    (call_default c) (call_options c).

(** ** The key queries *)

(** [s.startswith(term)]. *)
Definition startswith (s term : string) : bool :=
  match strip_prefix term s with
  | Some _ => true
  | None => false
  end.

(** [s.endswith(term)]: [s] is [term], or what follows its first character
    ends with [term]. *)
Fixpoint endswith (s term : string) : bool :=
  String.eqb s term
  || match s with
     | String _ s' => endswith s' term
     | EmptyString => false
     end.

(** The keys of [_params], as [for k in self._params] visits them.  The
    mapping of the model has no insertion order: the keys come in the order
    of the model, each once. *)
Definition params_keys (self : ConfigManager) : list string :=
  elements (dom (_params self)).

(** [params_startswith]. *)
Definition params_startswith (term : string) (self : ConfigManager) : list string :=
  filter (fun k => startswith k term = true) (params_keys self).

(** [params_endswith]. *)
Definition params_endswith (term : string) (self : ConfigManager) : list string :=
  filter (fun k => endswith k term = true) (params_keys self).

(** ** The pulse check of the notebook builder

    [dockerizer/builders/notebooks.py].  The project table and the base
    class of the builder are not part of the source: a project is what
    [_check_pulse] reads of it, the table is a function from ids, and the
    builder is the attributes the method uses. *)

Record Project := mkProject {
  has_notebook : bool;
  notebook : option Z
}.

Record NotebookDockerBuilder := mkNotebookDockerBuilder {
  CHECK_INTERVAL : Z;
  project_id : Z;
  project_name : string
}.

(** [_check_pulse]: what it logs, and the pair it returns. *)
Definition _check_pulse (projects : Z -> option Project)
    (self : NotebookDockerBuilder) (check_pulse : Z) : list string * (Z * bool) :=
  if CHECK_INTERVAL self <? check_pulse then
    match projects (project_id self) with
    | None =>
        (["Project `" ++ project_name self
          ++ "` does not exist anymore, stopping build"],
         (check_pulse, true))
    | Some project =>
        if negb (has_notebook project)
           || negb (match notebook project with Some _ => true | None => false end)
        then
          (["Project `" ++ project_name self
            ++ "` does not have a notebook anymore, stopping build"],
           (check_pulse, true))
        else ([], (0, false))
    end
  else ([], (check_pulse, false)).

(** ** What the statements below are written with *)

(** The instance after [_add_key]. *)
Definition added (key : string) (is_secret is_local : bool) (self : ConfigManager)
  : ConfigManager :=
  snd (_add_key key is_secret is_local self).

(** What the engine does once it has found the string [s]. *)
Definition on_string (key : string) (target_type : pytype)
    (type_convert : string -> result pyval) (options : option (list pyval))
    (s : string) : result pyval :=
  if options_truthy options && negb (value_in (VStr s) options)
  then Raise (EConfigurationError (NotOneOfPossibleValues (VStr s) key))
  else match type_convert s with
       | Raise EValueError =>
           Raise (EConfigurationError (CannotConvert (VStr s) key target_type))
       | r => r
       end.

(** What the engine does once it has found a value of the target type. *)
Definition on_native (key : string) (options : option (list pyval))
    (value : pyval) : result pyval :=
  if options_truthy options && negb (value_in value options)
  then Raise (EConfigurationError (NotOneOfPossibleValues value key))
  else Ok value.

(** Whether the engine, asked for [target_type], gets as far as [_add_key]
    on the stored value: it is a [str] or of the target type. *)
Definition accepted (value : pyval) (target_type : pytype) : bool :=
  isinstance value Tstr || isinstance value target_type.

(** What a getter does with the value its fetch returned. *)
Definition after_fetch (c : call) (value : pyval) : result pyval :=
  match c with
  | Call g key is_list _ _ _ default _ =>
      if is_list then
        if negb (truthy value) then Ok default
        else match value with
             | VList l =>
                 match convert_elements key (getter_type g) (getter_convert g key) l with
                 | Ok result => Ok (VList result)
                 | Raise e => Raise e
                 end
             | _ => Raise (EConfigurationError
                             (CannotConvertList value key (raise_type_of (getter_type g))))
             end
      else
        match g with
        | GetDict =>
            if negb (truthy value) then Ok default
            else if negb (isinstance value TMapping)
            then Raise (EConfigurationError (CannotConvertToDict value key))
            else Ok value
        | _ => Ok value
        end
  | CallGetList _ _ _ _ _ _ => Ok value
  end.


(** [msg] has [text] in it. *)
Definition names (text msg : string) : Prop :=
  exists before after, msg = before ++ text ++ after.

(** An element the loop of the list engine keeps: a string that
    [type_convert] turns into [x], or a value of the target type, kept. *)
Definition converts (target_type : pytype) (type_convert : string -> result pyval)
    (v x : pyval) : Prop :=
  match v with
  | VStr s => type_convert s = Ok x
  | _ => isinstance v target_type = true /\ x = v
  end.




(** Every requested key is a key of [_params]. *)
Definition requested_are_params (self : ConfigManager) : Prop :=
  forall key, key ∈ _requested_keys self -> is_Some (_params self !! key).

(** A call with other [options], with another [is_optional], with other
    [is_secret] and [is_local]. *)
Definition with_options (options : option (list pyval)) (c : call) : call :=
  match c with
  | Call g key is_list is_optional is_secret is_local default _ =>
      Call g key is_list is_optional is_secret is_local default options
  | CallGetList key is_optional is_secret is_local default _ =>
      CallGetList key is_optional is_secret is_local default options
  end.

Definition with_optional (is_optional : bool) (c : call) : call :=
  match c with
  | Call g key is_list _ is_secret is_local default options =>
      Call g key is_list is_optional is_secret is_local default options
  | CallGetList key _ is_secret is_local default options =>
      CallGetList key is_optional is_secret is_local default options
  end.

Definition with_flags (is_secret is_local : bool) (c : call) : call :=
  match c with
  | Call g key is_list is_optional _ _ default options =>
      Call g key is_list is_optional is_secret is_local default options
  | CallGetList key is_optional _ _ default options =>
      CallGetList key is_optional is_secret is_local default options
  end.

(** [sep.join(parts)]. *)
Fixpoint join (sep : ascii) (parts : list string) : string :=
  match parts with
  | [] => EmptyString
  | [p] => p
  | p :: ps => p ++ String sep (join sep ps)
  end.

(** [_encode], [n] times over. *)
Fixpoint encode_times (n : nat) (value : string) : string :=
  match n with
  | O => value
  | S n => _encode (encode_times n value)
  end.

(** A part as [get_list] returns it: not empty, without a comma, without
    white space at either end. *)
Definition clean_part (p : string) : Prop :=
  p <> "" /\ count_char "," p = O /\ strip p = p.

(** The type of the elements of the list form of a call. *)
Definition element_type (c : call) : pytype :=
  match c with
  | Call g _ _ _ _ _ _ _ => getter_type g
  | CallGetList _ _ _ _ _ _ => Tstr
  end.

(** The calls in which [json.loads] has a part: [get_dict], and every list
    form. *)
Definition decodes_json (c : call) : bool :=
  match c with
  | Call g _ is_list _ _ _ _ _ =>
      is_list || match g with GetDict => true | _ => false end
  | CallGetList _ _ _ _ _ _ => false
  end.


(** * Properties *)

(** ** The single-value engine, case by case *)

Lemma _get_typed_value_absent key target_type type_convert
    is_optional is_secret is_local default options self :
  _params self !! key = None ->
  _get_typed_value key target_type type_convert
    is_optional is_secret is_local default options self
  = (if is_optional then Ok default
     else Raise (EConfigurationError (NoValueProvided key)), self).
Proof.
  intros Hk.
  unfold _get_typed_value, bind, try_except, _get, ret, raise.
  rewrite Hk. simpl. destruct is_optional; reflexivity.
Qed.

Lemma _get_typed_value_string key target_type type_convert
    is_optional is_secret is_local default options self s :
  _params self !! key = Some (VStr s) ->
  _get_typed_value key target_type type_convert
    is_optional is_secret is_local default options self
  = (on_string key target_type type_convert options s,
     added key is_secret is_local self).
Proof.
  intros Hk.
  unfold _get_typed_value, bind, try_except, _get, ret, raise, on_string, added.
  rewrite Hk. simpl.
  unfold _check_options, raise, ret, lift.
  destruct (options_truthy options && negb (value_in (VStr s) options)); simpl;
    [reflexivity|].
  destruct (type_convert s) as [v|[]]; reflexivity.
Qed.

Lemma _get_typed_value_native key target_type type_convert
    is_optional is_secret is_local default options self value :
  _params self !! key = Some value ->
  isinstance value Tstr = false ->
  isinstance value target_type = true ->
  _get_typed_value key target_type type_convert
    is_optional is_secret is_local default options self
  = (on_native key options value, added key is_secret is_local self).
Proof.
  intros Hk Hs Ht.
  unfold _get_typed_value, bind, try_except, _get, ret, raise, on_native, added.
  rewrite Hk. simpl.
  destruct value; try discriminate Hs; rewrite Ht;
    unfold _check_options, raise, ret; simpl;
    match goal with |- context [options_truthy ?o && ?b] =>
      destruct (options_truthy o && b) end; reflexivity.
Qed.

Lemma _get_typed_value_wrong key target_type type_convert
    is_optional is_secret is_local default options self value :
  _params self !! key = Some value ->
  isinstance value Tstr = false ->
  isinstance value target_type = false ->
  _get_typed_value key target_type type_convert
    is_optional is_secret is_local default options self
  = (Raise (EConfigurationError (WrongType key value target_type)), self).
Proof.
  intros Hk Hs Ht.
  unfold _get_typed_value, bind, try_except, _get, ret, raise.
  rewrite Hk. simpl.
  destruct value; try discriminate Hs; rewrite Ht; reflexivity.
Qed.

Lemma _get_typed_value_state key target_type type_convert
    is_optional is_secret is_local default options self :
  snd (_get_typed_value key target_type type_convert
         is_optional is_secret is_local default options self)
  = match _params self !! key with
    | Some value =>
        if accepted value target_type then added key is_secret is_local self
        else self
    | None => self
    end.
Proof.
  destruct (_params self !! key) as [value|] eqn:Hk.
  - unfold accepted.
    destruct (isinstance value Tstr) eqn:Hs.
    + destruct value; try discriminate Hs. simpl.
      erewrite _get_typed_value_string by eassumption. reflexivity.
    + destruct (isinstance value target_type) eqn:Ht; simpl.
      * erewrite _get_typed_value_native by eassumption. reflexivity.
      * erewrite _get_typed_value_wrong by eassumption. reflexivity.
  - erewrite _get_typed_value_absent by eassumption. reflexivity.
Qed.

(** ** Getters as a fetch followed by a pure step *)

Lemma bind_pure {A B} (m : M A) (f : A -> result B) self :
  bind m (fun a => lift (f a)) self
  = (match fst (m self) with Ok a => f a | Raise e => Raise e end, snd (m self)).
Proof. unfold bind, lift. destruct (m self) as [[a|e] s]; reflexivity. Qed.

Lemma _get_typed_list_value_eq g key is_optional is_secret is_local default options self :
  _get_typed_list_value key (getter_type g) (getter_convert g key)
    is_optional is_secret is_local default options self
  = let c := Call g key true is_optional is_secret is_local default options in
    (match fst (fetch c self) with
     | Ok value => after_fetch c value
     | Raise e => Raise e
     end, snd (fetch c self)).
Proof.
  unfold _get_typed_list_value, fetch, bind. simpl.
  destruct (_get_typed_value _ _ _ _ _ _ _ _ _) as [[value|e] s]; simpl; [|reflexivity].
  destruct (truthy value); simpl; [|reflexivity].
  destruct value; try reflexivity.
  destruct (convert_elements _ _ _ _); reflexivity.
Qed.

Lemma run_call_eq c self :
  run_call c self
  = (match fst (fetch c self) with
     | Ok value => after_fetch c value
     | Raise e => Raise e
     end, snd (fetch c self)).
Proof.
  destruct c as [g key il io isc ilo d o|key io isc ilo d o].
  - destruct il.
    + rewrite <- _get_typed_list_value_eq. destruct g; reflexivity.
    + destruct g; simpl;
        unfold get_int, get_float, get_boolean, get_string, get_dict, get_uri, fetch;
        simpl;
        try (destruct (_get_typed_value _ _ _ _ _ _ _ _ _) as [[value|e] s]; reflexivity).
      unfold bind.
      destruct (_get_typed_value _ _ _ _ _ _ _ _ _) as [[value|e] s]; simpl; [|reflexivity].
      destruct (truthy value); simpl; [|reflexivity].
      destruct value; reflexivity.
  - simpl. unfold get_list, fetch. simpl.
    destruct (_get_typed_value _ _ _ _ _ _ _ _ _) as [[value|e] s]; reflexivity.
Qed.

Lemma run_call_state c self :
  snd (run_call c self)
  = match _params self !! call_key c with
    | Some value =>
        if accepted value (fetch_type c)
        then added (call_key c) (call_is_secret c) (call_is_local c) self
        else self
    | None => self
    end.
Proof.
  rewrite run_call_eq. simpl. unfold fetch. apply _get_typed_value_state.
Qed.

Lemma run_call_params c self : _params (snd (run_call c self)) = _params self.
Proof.
  rewrite run_call_state.
  destruct (_params self !! call_key c) as [value|]; [|reflexivity].
  destruct (accepted value (fetch_type c)); reflexivity.
Qed.

(** ** Bookkeeping *)

(** C1, as the code has it.  A typed getter call adds its key to
    [_requested_keys] (and to [_secret_keys] and [_local_keys] when the
    flags say so) exactly when the key is present and the stored value is a
    string or of the type the fetch asks for; it does so before the options
    check and the conversion, whatever they then do.  A call on an absent
    key, or on a stored value of another shape, leaves the instance as it
    was. *)
Theorem bookkeeping_follows_found_value (c : call) (self : ConfigManager) :
  let self' := snd (run_call c self) in
  match _params self !! call_key c with
  | Some value =>
      if accepted value (fetch_type c) then
        _requested_keys self' = {[call_key c]} ∪ _requested_keys self
        /\ _secret_keys self'
           = (if call_is_secret c then {[call_key c]} ∪ _secret_keys self
              else _secret_keys self)
        /\ _local_keys self'
           = (if call_is_local c then {[call_key c]} ∪ _local_keys self
              else _local_keys self)
      else self' = self
  | None => self' = self
  end.
Proof.
  cbv zeta. rewrite run_call_state.
  destruct (_params self !! call_key c) as [value|]; [|reflexivity].
  destruct (accepted value (fetch_type c)); [|reflexivity].
  repeat split.
Qed.

(** C1, as stated, fails: [get_int] on a key that holds ["abc"] raises the
    conversion error and has recorded the key in all three sets. *)
Lemma failed_conversion_records_key :
  let self := init {[ "X" := VStr "abc" ]} in
  let r := get_int "X" false false true true VNone None self in
  fst r = Raise (EConfigurationError (CannotConvert (VStr "abc") "X" Tint))
  /\ ("X" ∉ _requested_keys self)
  /\ ("X" ∈ _requested_keys (snd r))
  /\ ("X" ∈ _secret_keys (snd r))
  /\ ("X" ∈ _local_keys (snd r)).
Proof.
  cbv zeta. unfold get_int.
  erewrite _get_typed_value_string by (apply lookup_singleton_eq).
  simpl. repeat split; set_solver.
Qed.

(** ** Absent keys *)




(** ** The raw mapping *)

Lemma params_never_mutated_aux (cs : list call) (self : ConfigManager) :
  _params (run_calls cs self) = _params self.
Proof.
  revert self. induction cs as [|c cs IH]; intros self; simpl; [reflexivity|].
  rewrite IH. apply run_call_params.
Qed.

(** C9.  Whatever typed getter calls are made on an instance, and whether
    they return or raise, [_params] stays what the constructor was given:
    every key maps to what it mapped to then. *)
Theorem params_never_mutated (params : gmap string pyval) (cs : list call) :
  _params (run_calls cs (init params)) = params
  /\ forall key, _params (run_calls cs (init params)) !! key = params !! key.
Proof.
  pose proof (params_never_mutated_aux cs (init params)) as H.
  split; [exact H|]. intros key. rewrite H. reflexivity.
Qed.

(** ** The options check *)

Lemma json_loads_raises s e :
  json_loads s = Raise e -> e = EValueError \/ e = ERecursionError.
Proof.
  unfold json_loads.
  destruct (scan_once _ _ _) as [obj r| |]; [destruct (skip_ws r)| |];
    intros H; inversion H; auto.
Qed.

(** What the converters of the single-value getters can raise. *)
Lemma fetch_convert_raises c s e :
  call_is_list c = false ->
  fetch_convert c s = Raise e ->
  e = EValueError
  \/ e = EConfigurationError (InvalidUriSpec s)
  \/ e = EConfigurationError (InvalidUriUserPass s)
  \/ e = ERecursionError.
Proof.
  destruct c as [g key il io isc ilo d o|key io isc ilo d o]; simpl.
  - intros ->. destruct g; simpl.
    + unfold py_int. destruct (match strip_c _ with String _ _ => _ | _ => _ end).
      destruct (digits_value _ _ _); intros H; inversion H; auto.
    + unfold py_float. destruct (py_float_value s); intros H; inversion H; auto.
    + unfold convert_bool, strtobool.
      repeat match goal with |- context [if ?b then _ else _] => destruct b end;
        simpl; intros H; inversion H; auto.
    + discriminate.
    + unfold convert_to_dict. destruct (json_loads s) as [v|e'] eqn:Hj.
      * destruct (isinstance v TMapping); intros H; inversion H; auto.
      * intros H; inversion H; subst.
        destruct (json_loads_raises s e Hj) as [-> | ->]; auto.
    + unfold parse_uri_spec.
      destruct (split "@" s) as [|a [|b [|? ?]]]; try (intros H; inversion H; auto).
      revert H. destruct (split ":" a) as [|u [|w [|? ?]]]; intros H; inversion H; auto.
  - discriminate.
Qed.

(** C3, as the code has it.  When a single-value getter finds a string under
    its key and [options] is not empty, it is the stored string itself that
    is looked up in [options], before any conversion: the call raises the
    options error exactly when the stored string is not a member, and
    otherwise goes on with the conversion. *)
Theorem options_check_is_on_stored_string (c : call) (self : ConfigManager) (s : string) :
  call_is_list c = false ->
  options_truthy (call_options c) = true ->
  _params self !! call_key c = Some (VStr s) ->
  (fst (run_call c self)
   = Raise (EConfigurationError (NotOneOfPossibleValues (VStr s) (call_key c)))
   <-> value_in (VStr s) (call_options c) = false)
  /\ (value_in (VStr s) (call_options c) = true ->
      fst (run_call c self)
      = match fetch_convert c s with
        | Ok value => after_fetch c value
        | Raise EValueError =>
            Raise (EConfigurationError (CannotConvert (VStr s) (call_key c) (fetch_type c)))
        | Raise e => Raise e
        end).
Proof.
  intros Hl Ho Hk.
  rewrite run_call_eq. unfold fetch.
  rewrite (_get_typed_value_string _ _ _ _ _ _ _ _ _ _ Hk). simpl.
  unfold on_string. rewrite Ho. simpl.
  destruct (value_in (VStr s) (call_options c)) eqn:Hin; simpl.
  - split; [|intros _; destruct (fetch_convert c s) as [v|[]]; reflexivity].
    split; [|discriminate]. intros H. exfalso.
    destruct (fetch_convert c s) as [v|e] eqn:Hc.
    + destruct c as [g key il io isc ilo d o|key io isc ilo d o]; simpl in *;
        [|discriminate].
      subst il. destruct g; try discriminate.
      destruct (truthy v); simpl in H; try discriminate.
      destruct v; simpl in H; discriminate.
    + destruct (fetch_convert_raises c s e Hl Hc) as [-> | [-> | [-> | ->]]];
        discriminate.
  - split; [|discriminate]. split; reflexivity.
Qed.

Lemma options_check_is_on_stored_string_witness :
  let c := Call GetString "X" false false false false VNone
             (Some [VStr "a"; VStr "b"]) in
  let self := init {[ "X" := VStr "c" ]} in
  fst (run_call c self)
  = Raise (EConfigurationError (NotOneOfPossibleValues (VStr "c") "X")).
Proof.
  cbv zeta.
  apply (options_check_is_on_stored_string
           (Call GetString "X" false false false false VNone
              (Some [VStr "a"; VStr "b"]))
           (init {[ "X" := VStr "c" ]}) "c"); reflexivity.
Defined.

(** C3, as stated, fails: ["5"] converts to [5], and [5] is in [options],
    yet [get_int] raises the options error; and with ["5"] in [options] it
    returns [5], which is not in [options]. *)
Lemma options_not_checked_on_converted_value :
  let self := init {[ "X" := VStr "5" ]} in
  py_int "5" = Ok (VInt 5)
  /\ py_in (VInt 5) [VInt 5] = true
  /\ fst (get_int "X" false false false false VNone (Some [VInt 5]) self)
     = Raise (EConfigurationError (NotOneOfPossibleValues (VStr "5") "X"))
  /\ py_in (VInt 5) [VStr "5"] = false
  /\ fst (get_int "X" false false false false VNone (Some [VStr "5"]) self)
     = Ok (VInt 5).
Proof. repeat split. Qed.

(** ** [get_boolean] *)

(** C7.  On a stored string, without [options], [get_boolean] returns
    [True] for the spellings [strtobool] takes as true, [False] for those it
    takes as false, in any letter case, and raises the conversion error for
    every other string.  ["true"], ["yes"], ["1"], ["false"], ["no"], ["0"]
    and ["maybe"] are instances. *)
Theorem get_boolean_of_string (key : string) (is_optional is_secret is_local : bool)
    (default : pyval) (self : ConfigManager) (s : string) :
  _params self !! key = Some (VStr s) ->
  let r := fst (get_boolean key false is_optional is_secret is_local default None self) in
  r = (if existsb (String.eqb (lower s)) ["y"; "yes"; "t"; "true"; "on"; "1"]
       then Ok (VBool true)
       else if existsb (String.eqb (lower s)) ["n"; "no"; "f"; "false"; "off"; "0"]
       then Ok (VBool false)
       else Raise (EConfigurationError (CannotConvert (VStr s) key Tbool)))
  /\ (In s ["true"; "yes"; "1"] -> r = Ok (VBool true))
  /\ (In s ["false"; "no"; "0"] -> r = Ok (VBool false))
  /\ (s = "maybe" -> r = Raise (EConfigurationError (CannotConvert (VStr s) key Tbool))).
Proof.
  intros Hk. cbv zeta. unfold get_boolean.
  rewrite (_get_typed_value_string _ _ _ _ _ _ _ _ _ _ Hk). cbn [fst].
  unfold on_string, convert_bool, strtobool. cbn [options_truthy andb].
  split.
  - destruct (existsb (String.eqb (lower s)) ["y"; "yes"; "t"; "true"; "on"; "1"]);
      [reflexivity|].
    destruct (existsb (String.eqb (lower s)) ["n"; "no"; "f"; "false"; "off"; "0"]);
      reflexivity.
  - split; [|split].
    + intros [<-|[<-|[<-|[]]]]; reflexivity.
    + intros [<-|[<-|[<-|[]]]]; reflexivity.
    + intros ->. reflexivity.
Qed.

Lemma get_boolean_of_string_witness :
  fst (get_boolean "FLAG" false false false false VNone None
         (init {[ "FLAG" := VStr "Yes" ]}))
  = Ok (VBool true).
Proof.
  pose proof (get_boolean_of_string "FLAG" false false false VNone
                (init {[ "FLAG" := VStr "Yes" ]}) "Yes") as H.
  cbv zeta in H. destruct H as [H _]; [reflexivity|].
  rewrite H. reflexivity.
Defined.

(** ** [parse_uri_spec] *)

Section Split.
Variable sep : ascii.

Lemma append_cons (x : ascii) (a b : string) :
  String x a ++ b = String x (a ++ b).
Proof. reflexivity. Qed.

Lemma app_string_assoc (a b c : string) : (a ++ b) ++ c = a ++ b ++ c.
Proof.
  induction a as [|x a IH]; [reflexivity|].
  rewrite !append_cons. now rewrite IH.
Qed.

Lemma count_char_app (a b : string) :
  count_char sep (a ++ b) = (count_char sep a + count_char sep b)%nat.
Proof.
  induction a as [|x a IH]; [reflexivity|].
  rewrite append_cons. simpl. rewrite IH. lia.
Qed.

Lemma split_not_nil (s : string) : split sep s <> [].
Proof.
  destruct s as [|c s]; simpl; [discriminate|].
  destruct (Ascii.eqb c sep); [discriminate|].
  destruct (split sep s); discriminate.
Qed.

Lemma split_length (s : string) :
  length (split sep s) = S (count_char sep s).
Proof.
  induction s as [|c s IH]; simpl; [reflexivity|].
  destruct (Ascii.eqb c sep); simpl; [now rewrite IH|].
  destruct (split sep s) as [|p ps] eqn:E; simpl in *; [discriminate|exact IH].
Qed.

(** A text without the separator is its own only part. *)
Lemma split_none (s : string) :
  count_char sep s = O -> split sep s = [s].
Proof.
  induction s as [|c s IH]; simpl; [reflexivity|].
  destruct (Ascii.eqb c sep); simpl; [discriminate|].
  intros H. now rewrite IH.
Qed.

(** The first part ends at the first separator. *)
Lemma split_app (a b : string) :
  count_char sep a = O ->
  split sep (a ++ String sep b) = a :: split sep b.
Proof.
  induction a as [|c a IH].
  - intros _. change ("" ++ String sep b) with (String sep b).
    simpl. now rewrite Ascii.eqb_refl.
  - rewrite append_cons. simpl.
    destruct (Ascii.eqb c sep); simpl; [discriminate|].
    intros H. now rewrite IH.
Qed.

(** Two parts: the text is the first, the separator, the second, and the
    separator is in neither. *)
Lemma split_two (s a b : string) :
  split sep s = [a; b] ->
  s = a ++ String sep b /\ count_char sep a = O /\ count_char sep b = O.
Proof.
  revert a. induction s as [|c s IH]; intros a; simpl; [discriminate|].
  destruct (Ascii.eqb c sep) eqn:Ec.
  - intros H. injection H as <- Hs.
    apply Ascii.eqb_eq in Ec. subst c.
    pose proof (split_length s) as Hl. rewrite Hs in Hl. simpl in Hl.
    assert (Hc : count_char sep s = O) by lia.
    rewrite (split_none s Hc) in Hs. injection Hs as <-.
    repeat split; assumption.
  - destruct (split sep s) as [|p ps] eqn:E; [discriminate|].
    intros H. injection H as <- ->.
    destruct (IH p eq_refl) as (-> & Hp & Hb).
    simpl. rewrite Ec. repeat split; assumption.
Qed.
End Split.

Lemma parse_uri_spec_ok_iff (uri_spec : string) :
  is_ok (parse_uri_spec uri_spec) = true
  <-> count_char "@" uri_spec = 1%nat
      /\ count_char ":" (hd "" (split "@" uri_spec)) = 1%nat.
Proof.
  unfold parse_uri_spec.
  pose proof (split_length "@" uri_spec) as Hl.
  destruct (split "@" uri_spec) as [|a [|b [|? ?]]]; simpl in *;
    try (split; [discriminate | intros [? ?]; lia]).
  pose proof (split_length ":" a) as Hl'.
  destruct (split ":" a) as [|u [|w [|? ?]]]; simpl in *;
    try (split; [discriminate | intros [? ?]; lia]).
  split; [intros _; split; lia | reflexivity].
Qed.

(** C5.  [parse_uri_spec] returns a [UriSpec] exactly when its argument has
    exactly one [@] and exactly one [:] before it; the result then has the
    text before the [:] as user, the text between [:] and [@] as password
    and the text after the [@] as host.  On every other argument it raises
    a [ConfigurationError] whose message has the argument and the grammar
    [user:pass@host] in it.  The three arguments of the specification are
    instances. *)
Theorem parse_uri_spec_grammar (uri_spec : string) :
  let one_at_one_colon :=
    count_char "@" uri_spec = 1%nat
    /\ count_char ":" (hd "" (split "@" uri_spec)) = 1%nat in
  (one_at_one_colon ->
   exists u p h,
     uri_spec = u ++ ":" ++ p ++ "@" ++ h
     /\ parse_uri_spec uri_spec
        = Ok (VUri {| user := u; password := p; host := h |}))
  /\ (~ one_at_one_colon ->
      exists e msg,
        parse_uri_spec uri_spec = Raise (EConfigurationError e)
        /\ uri_error_message e = Some msg
        /\ names uri_spec msg
        /\ names "user:pass@host" msg)
  /\ (forall u p h,
        parse_uri_spec uri_spec = Ok (VUri {| user := u; password := p; host := h |})
        <-> uri_spec = u ++ ":" ++ p ++ "@" ++ h
            /\ count_char "@" u = O /\ count_char ":" u = O
            /\ count_char "@" p = O /\ count_char ":" p = O
            /\ count_char "@" h = O)
  /\ parse_uri_spec "alice:secret@db.local"
     = Ok (VUri {| user := "alice"; password := "secret"; host := "db.local" |})
  /\ parse_uri_spec "alice@db.local"
     = Raise (EConfigurationError (InvalidUriUserPass "alice@db.local"))
  /\ parse_uri_spec "alice:sec:ret@db.local"
     = Raise (EConfigurationError (InvalidUriUserPass "alice:sec:ret@db.local")).
Proof.
  cbv zeta. split; [|split; [|split; [|repeat split]]].
  - intros H. apply parse_uri_spec_ok_iff in H. unfold parse_uri_spec in *.
    destruct (split "@" uri_spec) as [|a [|b [|? ?]]] eqn:Ea; try discriminate.
    destruct (split ":" a) as [|u [|w [|? ?]]] eqn:Eu; try discriminate.
    exists u, w, b. split; [|reflexivity].
    apply split_two in Ea. destruct Ea as (-> & _ & _).
    apply split_two in Eu. destruct Eu as (-> & _ & _).
    rewrite app_string_assoc. reflexivity.
  - intros H.
    assert (Hn : is_ok (parse_uri_spec uri_spec) = false).
    { destruct (is_ok (parse_uri_spec uri_spec)) eqn:E; [|reflexivity].
      exfalso. apply H. apply parse_uri_spec_ok_iff. exact E. }
    unfold parse_uri_spec in *.
    assert (H1 : exists msg,
               uri_error_message (InvalidUriSpec uri_spec) = Some msg
               /\ names uri_spec msg /\ names "user:pass@host" msg).
    { eexists. split; [reflexivity|]. split.
      - exists "Received invalid uri_spec `",
          "`. The uri must be in the format `user:pass@host`". reflexivity.
      - exists ("Received invalid uri_spec `" ++ uri_spec
                ++ "`. The uri must be in the format `"), "`".
        rewrite !app_string_assoc. reflexivity. }
    assert (H2 : exists msg,
               uri_error_message (InvalidUriUserPass uri_spec) = Some msg
               /\ names uri_spec msg /\ names "user:pass@host" msg).
    { eexists. split; [reflexivity|]. split.
      - exists "Received invalid uri_spec `",
          ("`. `user:host` is not conform."
           ++ "The uri must be in the format `user:pass@host`"). reflexivity.
      - exists ("Received invalid uri_spec `" ++ uri_spec
                ++ "`. `user:host` is not conform."
                ++ "The uri must be in the format `"), "`".
        rewrite !app_string_assoc. reflexivity. }
    destruct H1 as (m1 & ? & ? & ?). destruct H2 as (m2 & ? & ? & ?).
    destruct (split "@" uri_spec) as [|a [|b [|? ?]]];
      try (exists (InvalidUriSpec uri_spec), m1; repeat split; assumption).
    destruct (split ":" a) as [|u [|w [|? ?]]]; try discriminate;
      exists (InvalidUriUserPass uri_spec), m2; repeat split; assumption.
  - intros u p h. unfold parse_uri_spec. split.
    + destruct (split "@" uri_spec) as [|a [|b [|? ?]]] eqn:Ea; try discriminate.
      destruct (split ":" a) as [|u' [|w [|? ?]]] eqn:Eu; try discriminate.
      intros H. injection H as <- <- <-.
      apply split_two in Ea. destruct Ea as (-> & Ha & Hb).
      apply split_two in Eu. destruct Eu as (-> & Hu & Hw).
      rewrite count_char_app in Ha. simpl in Ha.
      rewrite app_string_assoc. repeat split; try assumption; lia.
    + intros (-> & Hu & Hu' & Hp & Hp' & Hh).
      replace (u ++ ":" ++ p ++ "@" ++ h) with ((u ++ ":" ++ p) ++ String "@" h)
        by (rewrite !app_string_assoc; reflexivity).
      assert (Hup : count_char "@" (u ++ ":" ++ p) = O).
      { rewrite count_char_app. change (":" ++ p) with (String ":" p).
        simpl. rewrite Hu, Hp. reflexivity. }
      rewrite (split_app _ _ _ Hup), (split_none _ _ Hh).
      change (u ++ ":" ++ p) with (u ++ String ":" p).
      rewrite (split_app _ _ _ Hu'), (split_none _ _ Hp'). reflexivity.
Qed.

Lemma parse_uri_spec_grammar_witness :
  exists u p h,
    "bob:pw@example.org" = u ++ ":" ++ p ++ "@" ++ h
    /\ parse_uri_spec "bob:pw@example.org"
       = Ok (VUri {| user := u; password := p; host := h |}).
Proof.
  apply (parse_uri_spec_grammar "bob:pw@example.org").
  split; reflexivity.
Defined.

(** ** The list engine *)

Section Elements.
Variable key : string.
Variable target_type : pytype.
Variable type_convert : string -> result pyval.

Lemma convert_element_converts v x :
  convert_element key target_type type_convert v = Ok x
  <-> converts target_type type_convert v x.
Proof.
  unfold convert_element, converts.
  destruct v as [| | | |s| | |];
    try (match goal with
         | |- context [isinstance ?a ?b] => destruct (isinstance a b)
         end;
         (split;
          [ intros H; inversion H; auto
          | intros [H E]; first [discriminate H | rewrite E; reflexivity] ])).
  destruct (type_convert s) as [y|[]]; split; intros H; inversion H; reflexivity.
Qed.


(** The loop returns a list exactly when every element converts, and the
    list has the converted elements in the order of the input. *)
Lemma convert_elements_ok l xs :
  convert_elements key target_type type_convert l = Ok xs
  <-> Forall2 (converts target_type type_convert) l xs.
Proof.
  revert xs. induction l as [|v l IH]; intros xs; simpl.
  - split; [intros H; inversion H; constructor | intros H; inversion H; reflexivity].
  - destruct (convert_element key target_type type_convert v) as [x|e] eqn:Ev.
    + destruct (convert_elements key target_type type_convert l) as [ys|e] eqn:El.
      * split.
        -- intros H. inversion H; subst. constructor.
           ++ apply convert_element_converts. exact Ev.
           ++ apply IH. reflexivity.
        -- intros H. inversion H as [|v' x' l' ys' Hx Hys]; subst.
           apply convert_element_converts in Hx. apply IH in Hys.
           congruence.
      * split; [discriminate|].
        intros H. inversion H as [|v' x' l' ys' Hx Hys]; subst.
        apply IH in Hys. discriminate.
    + split; [discriminate|].
      intros H. inversion H as [|v' x' l' ys' Hx Hys]; subst.
      apply convert_element_converts in Hx. congruence.
Qed.

End Elements.



(** ** [get_dict] on an empty mapping *)




(** ** [get_requested_params] *)

Lemma requested_are_params_init params : requested_are_params (init params).
Proof. intros key H. simpl in H. set_solver. Qed.

Lemma requested_are_params_run_call c self :
  requested_are_params self -> requested_are_params (snd (run_call c self)).
Proof.
  intros Hinv. rewrite run_call_state.
  destruct (_params self !! call_key c) as [value|] eqn:Hk; [|exact Hinv].
  destruct (accepted value (fetch_type c)); [|exact Hinv].
  intros key. unfold added. simpl. intros H.
  apply elem_of_union in H. destruct H as [H|H].
  - apply elem_of_singleton in H. subst key. rewrite Hk. eauto.
  - apply Hinv. exact H.
Qed.

Lemma requested_are_params_run_calls cs self :
  requested_are_params self -> requested_are_params (run_calls cs self).
Proof.
  revert self. induction cs as [|c cs IH]; intros self H; simpl; [exact H|].
  apply IH. apply requested_are_params_run_call. exact H.
Qed.

Section RequestedParams.
Variable py_format : pyval -> string.
Variables include_secrets include_locals to_str : bool.
Variable self : ConfigManager.


End RequestedParams.




(** ** [_decode] *)

(** C2, as the code has it.  Called without an iteration count, [_decode]
    makes the three passes of its signature, whatever the configuration
    says.  Only for a count given as [None] or [0] does it take the number
    of passes from [decode_iterations], which is what [get_int] makes of
    [_POLYAXON_DECODE_ITERATION], [1] when the key is absent, computed once
    and kept. *)
Theorem _decode_passes (value : string) (self : ConfigManager) :
  _decode value None self = (decode_loop 3 value, self)
  /\ (forall iteration,
        iteration = VNone \/ iteration = VInt 0 ->
        _decode value (Some iteration) self
        = match decode_iterations self with
          | (Ok n, self') =>
              (match range_length n with
               | Ok passes => decode_loop passes value
               | Raise e => Raise e
               end, self')
          | (Raise e, self') => (Raise e, self')
          end)
  /\ (forall n, (0 < n)%Z ->
        _decode value (Some (VInt n)) self = (decode_loop (Z.to_nat n) value, self))
  /\ (_params self !! "_POLYAXON_DECODE_ITERATION" = None ->
      decode_iterations_cache self = None ->
      fst (decode_iterations self) = Ok (VInt 1)
      /\ decode_iterations_cache (snd (decode_iterations self)) = Some (VInt 1)
      /\ fst (_decode value (Some VNone) self) = decode_loop 1 value)
  /\ (forall v, decode_iterations_cache self = Some v ->
        decode_iterations self = (Ok v, self)).
Proof.
  split; [reflexivity|]. split; [|split; [|split]].
  - intros iteration [-> | ->]; unfold _decode, bind, lift; simpl;
      destruct (decode_iterations self) as [[n|e] self']; try reflexivity;
      destruct (range_length n); reflexivity.
  - intros n Hn. unfold _decode, bind, lift, ret. simpl.
    destruct (Z.eqb_spec n 0) as [->|_]; [lia|]. reflexivity.
  - intros Hk Hc.
    assert (Hd : decode_iterations self
                 = (Ok (VInt 1),
                    {| _params := _params self;
                       _requested_keys := _requested_keys self;
                       _secret_keys := _secret_keys self;
                       _local_keys := _local_keys self;
                       decode_iterations_cache := Some (VInt 1) |})).
    { unfold decode_iterations, get_int. rewrite Hc.
      rewrite (_get_typed_value_absent _ _ _ _ _ _ _ _ _ Hk). reflexivity. }
    split; [rewrite Hd; reflexivity|]. split; [rewrite Hd; reflexivity|].
    unfold _decode, bind, lift. simpl. rewrite Hd. reflexivity.
  - intros v Hc. unfold decode_iterations. rewrite Hc. reflexivity.
Qed.

Lemma _decode_passes_witness :
  fst (_decode "aGk=" (Some VNone) (init ∅)) = Ok "hi"
  /\ _decode "WVVkclBRPT0=" (Some (VInt 3)) (init ∅) = (Ok "hi", init ∅).
Proof.
  split.
  - pose proof (_decode_passes "aGk=" (init ∅)) as H.
    destruct H as (_ & _ & _ & H & _).
    destruct H as (_ & _ & H); [reflexivity | reflexivity |].
    rewrite H. reflexivity.
  - pose proof (_decode_passes "WVVkclBRPT0=" (init ∅)) as H.
    destruct H as (_ & _ & H & _).
    rewrite (H 3 eq_refl). reflexivity.
Defined.

(** C2, as stated, fails: without the key the cached value is [1], yet a
    call without a count makes three passes, and its result is not that of
    one pass. *)
Lemma _decode_default_ignores_decode_iterations :
  let self := init ∅ in
  let value := _encode (_encode (_encode "hi")) in
  fst (decode_iterations self) = Ok (VInt 1)
  /\ value = "WVVkclBRPT0="
  /\ fst (_decode value None self) = Ok "hi"
  /\ decode_loop 3 value = Ok "hi"
  /\ decode_loop 1 value = Ok "YUdrPQ=="
  /\ fst (_decode value None self) <> decode_loop 1 value.
Proof.
  cbv zeta. repeat split. vm_compute. discriminate.
Qed.

(** ** The sets of keys *)

(** On an instance reached from the constructor, the secret keys and the
    local keys are requested keys. *)
Lemma secret_and_local_are_requested (params : gmap string pyval) (cs : list call) :
  let self := run_calls cs (init params) in
  _secret_keys self ⊆ _requested_keys self
  /\ _local_keys self ⊆ _requested_keys self.
Proof.
  cbv zeta.
  assert (H : forall self,
             _secret_keys self ⊆ _requested_keys self
             /\ _local_keys self ⊆ _requested_keys self ->
             _secret_keys (run_calls cs self) ⊆ _requested_keys (run_calls cs self)
             /\ _local_keys (run_calls cs self) ⊆ _requested_keys (run_calls cs self)).
  { induction cs as [|c cs IH]; intros self Hs; simpl; [exact Hs|].
    apply IH. rewrite run_call_state.
    destruct (_params self !! call_key c) as [value|]; [|exact Hs].
    destruct (accepted value (fetch_type c)); [|exact Hs].
    unfold added. simpl. destruct Hs as [H1 H2].
    destruct (call_is_secret c), (call_is_local c); split; set_solver. }
  apply H. simpl. split; set_solver.
Qed.

(** ** The getters on the examples of the specification *)

Example get_int_of_string :
  fst (get_int "N" false false false false VNone None (init {[ "N" := VStr "42" ]}))
  = Ok (VInt 42).
Proof. reflexivity. Qed.

Example get_int_of_int :
  fst (get_int "N" false false false false VNone None (init {[ "N" := VInt 42 ]}))
  = Ok (VInt 42).
Proof. reflexivity. Qed.

Example get_dict_of_object :
  fst (get_dict "D" false false false false VNone None
         (init {[ "D" := VStr ("{" ++ q ++ "a" ++ q ++ ": 1}") ]}))
  = Ok (VDict [("a", VInt 1)]).
Proof. vm_compute. reflexivity. Qed.

Example get_dict_of_array :
  fst (get_dict "D" false false false false VNone None (init {[ "D" := VStr "[1,2]" ]}))
  = Raise (EConfigurationError (CannotConvert (VStr "[1,2]") "D" TMapping)).
Proof. vm_compute. reflexivity. Qed.

Example get_list_of_commas :
  fst (get_list "L" false false false VNone None (init {[ "L" := VStr "a, b ,, c" ]}))
  = Ok (VList [VStr "a"; VStr "b"; VStr "c"]).
Proof. vm_compute. reflexivity. Qed.

Example get_float_of_string :
  fst (get_float "F" false false false false VNone None (init {[ "F" := VStr "0.1" ]}))
  = Ok (VFloat (S754_finite false 7205759403792794 (-56))).
Proof. vm_compute. reflexivity. Qed.

Example encode_decode_once :
  _encode "hello world" = "aGVsbG8gd29ybGQ="
  /\ _decode_once "aGVsbG8gd29ybGQ=" = Ok "hello world".
Proof. split; vm_compute; reflexivity. Qed.

(** * More properties of the getters *)

(** ** The one error kind *)

Lemma getter_convert_raises g key s e :
  getter_convert g key s = Raise e ->
  e = EValueError
  \/ (exists ce, e = EConfigurationError ce)
  \/ (e = ERecursionError /\ g = GetDict).
Proof.
  intros H.
  destruct (fetch_convert_raises (Call g key false false false false VNone None) s e
              eq_refl H) as [-> | [-> | [-> | ->]]]; eauto.
  right. right. split; [reflexivity|].
  destruct g; simpl in H; try reflexivity.
  - unfold py_int in H. destruct (match strip_c _ with String _ _ => _ | _ => _ end).
    destruct (digits_value _ _ _); discriminate.
  - unfold py_float in H. destruct (py_float_value s); discriminate.
  - unfold convert_bool, strtobool in H.
    repeat match type of H with context [if ?b then _ else _] => destruct b end;
      discriminate.
  - discriminate.
  - unfold parse_uri_spec in H.
    destruct (split "@" s) as [|a [|b [|? ?]]]; try discriminate.
    destruct (split ":" a) as [|u [|w [|? ?]]]; discriminate.
Qed.


Lemma fetch_raises c self e :
  fst (fetch c self) = Raise e ->
  (exists ce, e = EConfigurationError ce)
  \/ (e = ERecursionError /\ decodes_json c = true).
Proof.
  unfold fetch.
  destruct (_params self !! call_key c) as [value|] eqn:Hk.
  - destruct (isinstance value Tstr) eqn:Hs.
    + destruct value; try discriminate Hs.
      rewrite (_get_typed_value_string _ _ _ _ _ _ _ _ _ _ Hk). simpl.
      unfold on_string.
      destruct (options_truthy _ && _); [intros H; injection H as <-; eauto|].
      destruct (fetch_convert c s) as [y|e'] eqn:Ec; [discriminate|].
      assert (He : e' = EValueError
                   \/ (exists ce, e' = EConfigurationError ce)
                   \/ (e' = ERecursionError /\ decodes_json c = true)).
      { destruct c as [g key il io isc ilo d o|key io isc ilo d o]; simpl in Ec.
        - destruct il.
          + destruct (json_loads_raises s e' Ec) as [-> | ->]; auto.
          + destruct (getter_convert_raises g key s e' Ec) as [-> | [[ce ->] | [-> ->]]];
              eauto.
        - discriminate. }
      destruct He as [-> | [[ce ->] | [-> Hd]]]; intros H; injection H as <-; eauto.
    + destruct (isinstance value (fetch_type c)) eqn:Ht.
      * rewrite (_get_typed_value_native _ _ _ _ _ _ _ _ _ _ Hk Hs Ht). simpl.
        unfold on_native. destruct (options_truthy _ && _); [|discriminate].
        intros H; injection H as <-; eauto.
      * rewrite (_get_typed_value_wrong _ _ _ _ _ _ _ _ _ _ Hk Hs Ht). simpl.
        intros H; injection H as <-; eauto.
  - rewrite (_get_typed_value_absent _ _ _ _ _ _ _ _ _ Hk). simpl.
    destruct (call_is_optional c); [discriminate|].
    intros H; injection H as <-; eauto.
Qed.



(** ** What a result depends on *)

Lemma fetch_result_params c self1 self2 :
  _params self1 = _params self2 -> fst (fetch c self1) = fst (fetch c self2).
Proof.
  intros Hp. unfold fetch.
  destruct (_params self1 !! call_key c) as [value|] eqn:Hk.
  - assert (Hk2 : _params self2 !! call_key c = Some value) by (rewrite <- Hp; exact Hk).
    destruct (isinstance value Tstr) eqn:Hs.
    + destruct value; try discriminate Hs.
      rewrite (_get_typed_value_string _ _ _ _ _ _ _ _ _ _ Hk).
      rewrite (_get_typed_value_string _ _ _ _ _ _ _ _ _ _ Hk2). reflexivity.
    + destruct (isinstance value (fetch_type c)) eqn:Ht.
      * rewrite (_get_typed_value_native _ _ _ _ _ _ _ _ _ _ Hk Hs Ht).
        rewrite (_get_typed_value_native _ _ _ _ _ _ _ _ _ _ Hk2 Hs Ht). reflexivity.
      * rewrite (_get_typed_value_wrong _ _ _ _ _ _ _ _ _ _ Hk Hs Ht).
        rewrite (_get_typed_value_wrong _ _ _ _ _ _ _ _ _ _ Hk2 Hs Ht). reflexivity.
  - assert (Hk2 : _params self2 !! call_key c = None) by (rewrite <- Hp; exact Hk).
    rewrite (_get_typed_value_absent _ _ _ _ _ _ _ _ _ Hk).
    rewrite (_get_typed_value_absent _ _ _ _ _ _ _ _ _ Hk2). reflexivity.
Qed.

(** What a typed getter returns or raises depends on [_params] alone: the
    calls made before it, returning or raising, change nothing of it.  A
    call that failed leaves every other call as usable as it was. *)
Theorem result_independent_of_earlier_calls (c : call) (cs : list call)
    (self : ConfigManager) :
  fst (run_call c (run_calls cs self)) = fst (run_call c self).
Proof.
  rewrite !run_call_eq. cbn [fst].
  rewrite (fetch_result_params c (run_calls cs self) self
             (params_never_mutated_aux cs self)).
  reflexivity.
Qed.

(** [is_secret] and [is_local] have no part in what a call returns or raises,
    nor in whether it records its key as requested. *)
Theorem flags_do_not_change_result (c : call) (is_secret is_local : bool)
    (self : ConfigManager) :
  fst (run_call (with_flags is_secret is_local c) self) = fst (run_call c self)
  /\ _requested_keys (snd (run_call (with_flags is_secret is_local c) self))
     = _requested_keys (snd (run_call c self)).
Proof.
  split.
  - rewrite !run_call_eq. cbn [fst].
    assert (Hf : fst (fetch (with_flags is_secret is_local c) self) = fst (fetch c self)).
    { unfold fetch.
      destruct c as [g key il io isc ilo d o|key io isc ilo d o]; simpl;
        (destruct (_params self !! key) as [value|] eqn:Hk;
         [ destruct (isinstance value Tstr) eqn:Hs;
           [ destruct value; try discriminate Hs;
             rewrite !(_get_typed_value_string _ _ _ _ _ _ _ _ _ _ Hk); reflexivity
           | match goal with
             | |- context [_get_typed_value _ ?t _ _ _ _ _ _ _] =>
                 destruct (isinstance value t) eqn:Ht;
                 [ rewrite !(_get_typed_value_native _ _ _ _ _ _ _ _ _ _ Hk Hs Ht)
                 | rewrite !(_get_typed_value_wrong _ _ _ _ _ _ _ _ _ _ Hk Hs Ht) ];
                 reflexivity
             end ]
         | rewrite !(_get_typed_value_absent _ _ _ _ _ _ _ _ _ Hk); reflexivity ]). }
    rewrite Hf. destruct c; reflexivity.
  - rewrite !run_call_state.
    destruct c as [g key il io isc ilo d o|key io isc ilo d o]; simpl;
      (destruct (_params self !! key) as [value|]; [|reflexivity]);
      match goal with
      | |- context [accepted ?v ?t] => destruct (accepted v t); reflexivity
      end.
Qed.

(** An empty [options] is no [options]: the check is made only against a
    list that has a member. *)
Theorem empty_options_is_no_options (c : call) (self : ConfigManager) :
  call_options c = Some [] ->
  run_call c self = run_call (with_options None c) self.
Proof.
  intros Ho.
  destruct c as [g key il io isc ilo d o|key io isc ilo d o]; simpl in Ho; subst o;
    simpl.
  - assert (H : forall tt conv,
               _get_typed_value key tt conv io isc ilo d (Some []) self
               = _get_typed_value key tt conv io isc ilo d None self).
    { intros tt conv.
      destruct (_params self !! key) as [value|] eqn:Hk.
      - destruct (isinstance value Tstr) eqn:Hs.
        + destruct value; try discriminate Hs.
          rewrite !(_get_typed_value_string _ _ _ _ _ _ _ _ _ _ Hk). reflexivity.
        + destruct (isinstance value tt) eqn:Ht.
          * rewrite !(_get_typed_value_native _ _ _ _ _ _ _ _ _ _ Hk Hs Ht). reflexivity.
          * rewrite !(_get_typed_value_wrong _ _ _ _ _ _ _ _ _ _ Hk Hs Ht). reflexivity.
      - rewrite !(_get_typed_value_absent _ _ _ _ _ _ _ _ _ Hk). reflexivity. }
    destruct g, il; simpl;
      unfold get_int, get_float, get_boolean, get_string, get_dict, get_uri,
        _get_typed_list_value, bind;
      rewrite H; reflexivity.
  - unfold get_list.
    destruct (_params self !! key) as [value|] eqn:Hk.
    + destruct (isinstance value Tstr) eqn:Hs.
      * destruct value; try discriminate Hs.
        rewrite !(_get_typed_value_string _ _ _ _ _ _ _ _ _ _ Hk). reflexivity.
      * destruct (isinstance value Tlist) eqn:Ht.
        -- rewrite !(_get_typed_value_native _ _ _ _ _ _ _ _ _ _ Hk Hs Ht). reflexivity.
        -- rewrite !(_get_typed_value_wrong _ _ _ _ _ _ _ _ _ _ Hk Hs Ht). reflexivity.
    + rewrite !(_get_typed_value_absent _ _ _ _ _ _ _ _ _ Hk). reflexivity.
Qed.

Lemma empty_options_is_no_options_witness :
  run_call (Call GetInt "N" false false false false VNone (Some []))
    (init {[ "N" := VStr "7" ]})
  = run_call (Call GetInt "N" false false false false VNone None)
      (init {[ "N" := VStr "7" ]}).
Proof.
  apply (empty_options_is_no_options
           (Call GetInt "N" false false false false VNone (Some []))
           (init {[ "N" := VStr "7" ]})).
  reflexivity.
Defined.

(** For a key that is present, [is_optional] makes no difference. *)
Theorem is_optional_only_matters_when_absent (c : call) (is_optional : bool)
    (self : ConfigManager) :
  is_Some (_params self !! call_key c) ->
  run_call (with_optional is_optional c) self = run_call c self.
Proof.
  intros [value Hv].
  assert (H : forall key tt conv io isc ilo d o,
             _params self !! key = Some value ->
             _get_typed_value key tt conv io isc ilo d o self
             = _get_typed_value key tt conv is_optional isc ilo d o self).
  { intros key tt conv io isc ilo d o Hk.
    destruct (isinstance value Tstr) eqn:Hs.
    - destruct value; try discriminate Hs.
      rewrite !(_get_typed_value_string _ _ _ _ _ _ _ _ _ _ Hk). reflexivity.
    - destruct (isinstance value tt) eqn:Ht.
      + rewrite !(_get_typed_value_native _ _ _ _ _ _ _ _ _ _ Hk Hs Ht). reflexivity.
      + rewrite !(_get_typed_value_wrong _ _ _ _ _ _ _ _ _ _ Hk Hs Ht). reflexivity. }
  destruct c as [g key il io isc ilo d o|key io isc ilo d o]; simpl in Hv; simpl.
  - destruct g, il; simpl;
      unfold get_int, get_float, get_boolean, get_string, get_dict, get_uri,
        _get_typed_list_value, bind;
      rewrite (H key _ _ io isc ilo d o Hv); reflexivity.
  - unfold get_list. rewrite (H key _ _ io isc ilo d o Hv). reflexivity.
Qed.

Lemma is_optional_only_matters_when_absent_witness :
  run_call (Call GetInt "N" false true false false VNone None)
    (init {[ "N" := VStr "x" ]})
  = run_call (Call GetInt "N" false false false false VNone None)
      (init {[ "N" := VStr "x" ]}).
Proof.
  apply (is_optional_only_matters_when_absent
           (Call GetInt "N" false false false false VNone None) true
           (init {[ "N" := VStr "x" ]})).
  exists (VStr "x"). reflexivity.
Defined.

(** ** The bookkeeping over sequences of calls *)

Lemma ConfigManager_eq (a b : ConfigManager) :
  _params a = _params b ->
  _requested_keys a = _requested_keys b ->
  _secret_keys a = _secret_keys b ->
  _local_keys a = _local_keys b ->
  decode_iterations_cache a = decode_iterations_cache b ->
  a = b.
Proof. destruct a, b; simpl; intros; subst; reflexivity. Qed.

Lemma added_comm k1 s1 l1 k2 s2 l2 self :
  added k1 s1 l1 (added k2 s2 l2 self) = added k2 s2 l2 (added k1 s1 l1 self).
Proof.
  apply ConfigManager_eq; unfold added; simpl; try reflexivity.
  - set_solver.
  - destruct s1, s2; set_solver.
  - destruct l1, l2; set_solver.
Qed.

Lemma added_idem k s l self : added k s l (added k s l self) = added k s l self.
Proof.
  apply ConfigManager_eq; unfold added; simpl; try reflexivity.
  - set_solver.
  - destruct s; set_solver.
  - destruct l; set_solver.
Qed.

(** The instance after a call, as a function of the instance before. *)
Lemma run_call_state_params c self other :
  _params other = _params self ->
  snd (run_call c other)
  = match _params self !! call_key c with
    | Some value =>
        if accepted value (fetch_type c)
        then added (call_key c) (call_is_secret c) (call_is_local c) other
        else other
    | None => other
    end.
Proof. intros Hp. rewrite run_call_state, Hp. reflexivity. Qed.

Lemma run_call_comm c1 c2 self :
  snd (run_call c2 (snd (run_call c1 self)))
  = snd (run_call c1 (snd (run_call c2 self))).
Proof.
  rewrite (run_call_state_params c2 self) by apply run_call_params.
  rewrite (run_call_state_params c1 self (snd (run_call c2 self)))
    by apply run_call_params.
  rewrite !run_call_state.
  destruct (_params self !! call_key c1) as [v1|];
    destruct (_params self !! call_key c2) as [v2|]; try reflexivity;
    try (destruct (accepted v1 (fetch_type c1)); reflexivity);
    try (destruct (accepted v2 (fetch_type c2)); reflexivity).
  destruct (accepted v1 (fetch_type c1)), (accepted v2 (fetch_type c2));
    try reflexivity.
  apply added_comm.
Qed.

(** The instance a sequence of typed getter calls leaves does not depend on
    the order of the calls, and a call made again changes nothing more. *)
Theorem bookkeeping_order_and_repetition (cs cs' : list call) (c : call)
    (self : ConfigManager) :
  (Permutation cs cs' -> run_calls cs self = run_calls cs' self)
  /\ snd (run_call c (snd (run_call c self))) = snd (run_call c self).
Proof.
  split.
  - intros Hp. revert self.
    induction Hp as [|x l l' _ IH|x y l|l l' l'' _ IH1 _ IH2]; intros self; simpl.
    + reflexivity.
    + apply IH.
    + rewrite run_call_comm. reflexivity.
    + rewrite IH1. apply IH2.
  - rewrite (run_call_state_params c self) by apply run_call_params.
    rewrite run_call_state.
    destruct (_params self !! call_key c) as [v|]; [|reflexivity].
    destruct (accepted v (fetch_type c)); [|reflexivity].
    apply added_idem.
Qed.

Lemma bookkeeping_order_and_repetition_witness :
  let c1 := Call GetInt "N" false false true false VNone None in
  let c2 := Call GetString "S" false false false true VNone None in
  let self := init {[ "N" := VStr "1"; "S" := VStr "s" ]} in
  run_calls [c1; c2] self = run_calls [c2; c1] self.
Proof.
  cbv zeta.
  apply (bookkeeping_order_and_repetition
           [Call GetInt "N" false false true false VNone None;
            Call GetString "S" false false false true VNone None]
           [Call GetString "S" false false false true VNone None;
            Call GetInt "N" false false true false VNone None]
           (Call GetInt "N" false false true false VNone None)).
  apply perm_swap.
Defined.

(** No typed getter call takes a key out of a set: the three sets only
    grow, and the cached [decode_iterations] is left alone. *)
Theorem bookkeeping_only_grows (cs : list call) (self : ConfigManager) :
  _requested_keys self ⊆ _requested_keys (run_calls cs self)
  /\ _secret_keys self ⊆ _secret_keys (run_calls cs self)
  /\ _local_keys self ⊆ _local_keys (run_calls cs self)
  /\ decode_iterations_cache (run_calls cs self) = decode_iterations_cache self.
Proof.
  revert self. induction cs as [|c cs IH]; intros self; simpl.
  - repeat split; reflexivity.
  - destruct (IH (snd (run_call c self))) as (H1 & H2 & H3 & H4).
    rewrite run_call_state in *.
    destruct (_params self !! call_key c) as [v|]; [|repeat split; assumption].
    destruct (accepted v (fetch_type c)); [|repeat split; assumption].
    unfold added in *. simpl in *.
    destruct (call_is_secret c), (call_is_local c);
      repeat split; try assumption; set_solver.
Qed.

(** On an instance reached from the constructor by typed getter calls,
    every requested key is a key of [_params], and every secret key and
    every local key is a requested key. *)
Theorem reachable_bookkeeping_invariant (params : gmap string pyval) (cs : list call) :
  let self := run_calls cs (init params) in
  _requested_keys self ⊆ dom params
  /\ _secret_keys self ⊆ _requested_keys self
  /\ _local_keys self ⊆ _requested_keys self.
Proof.
  cbv zeta. split.
  - intros key Hk.
    pose proof (requested_are_params_run_calls cs (init params)
                  (requested_are_params_init params) key Hk) as H.
    rewrite (params_never_mutated_aux cs (init params)) in H.
    apply elem_of_dom. exact H.
  - assert (H : forall self,
               _secret_keys self ⊆ _requested_keys self
               /\ _local_keys self ⊆ _requested_keys self ->
               _secret_keys (run_calls cs self) ⊆ _requested_keys (run_calls cs self)
               /\ _local_keys (run_calls cs self) ⊆ _requested_keys (run_calls cs self)).
    { induction cs as [|c cs IH]; intros self Hs; simpl; [exact Hs|].
      apply IH. rewrite run_call_state.
      destruct (_params self !! call_key c) as [value|]; [|exact Hs].
      destruct (accepted value (fetch_type c)); [|exact Hs].
      unfold added. simpl. destruct Hs as [H1 H2].
      destruct (call_is_secret c), (call_is_local c); split; set_solver. }
    apply H. simpl. split; set_solver.
Qed.

(** ** What [get_requested_params] lets through *)



(** * [get_list] and the key queries *)

(** ** Stripping *)

Section Strip.
Variable space1 : ascii -> bool.

Lemma rstrip_with_idem (s : string) :
  rstrip_with space1 (rstrip_with space1 s) = rstrip_with space1 s.
Proof.
  induction s as [|c s IH]; [reflexivity|].
  cbn [rstrip_with]. cbv zeta.
  destruct (is_one_space space1 (String c (rstrip_with space1 s))) eqn:E;
    [reflexivity|].
  cbn [rstrip_with]. cbv zeta. rewrite IH, E. reflexivity.
Qed.

(** What [rstrip] leaves is the start of what it was given. *)
Lemma rstrip_with_prefix (s : string) :
  exists w, s = rstrip_with space1 s ++ w.
Proof.
  induction s as [|c s [w IH]]; [exists EmptyString; reflexivity|].
  cbn [rstrip_with]. cbv zeta.
  destruct (is_one_space space1 (String c (rstrip_with space1 s))).
  - exists (String c s). reflexivity.
  - exists w. rewrite append_cons, <- IH. reflexivity.
Qed.

Lemma lead_space_prefix (p w : string) :
  lead_space space1 p = true -> lead_space space1 (p ++ w) = true.
Proof.
  destruct p as [|a [|b [|c r]]]; [discriminate| | |];
    rewrite ?append_cons; cbn [lead_space].
  - rewrite orb_false_r. intros ->. reflexivity.
  - rewrite orb_false_r. intros H. apply orb_true_iff in H.
    destruct H as [-> | ->]; [reflexivity|]. simpl. apply orb_true_r.
  - intros H. exact H.
Qed.

Lemma lstrip_with_fixed (s : string) :
  lead_space space1 s = false -> lstrip_with space1 s = s.
Proof.
  destruct s as [|a [|b [|c r]]]; cbn [lead_space lstrip_with];
    [reflexivity| | |].
  - rewrite orb_false_r. intros ->. reflexivity.
  - rewrite orb_false_r. intros H. apply orb_false_iff in H.
    destruct H as [-> ->]. reflexivity.
  - intros H. apply orb_false_iff in H. destruct H as [-> H].
    apply orb_false_iff in H. destruct H as [-> ->]. reflexivity.
Qed.

(** Induction on strings that may step over one, two or three
    characters. *)
Lemma string_ind_upto3 (P : string -> Prop) :
  (forall s,
     (forall a r, s = String a r -> P r) ->
     (forall a b r, s = String a (String b r) -> P r) ->
     (forall a b c r, s = String a (String b (String c r)) -> P r) ->
     P s) ->
  forall s, P s.
Proof.
  intros H.
  assert (Hn : forall n s, (String.length s <= n)%nat -> P s).
  { induction n as [|n IH]; intros s Hl.
    - destruct s; [|simpl in Hl; lia].
      apply H; intros; discriminate.
    - apply H.
      + intros a r ->. apply IH. simpl in Hl. lia.
      + intros a b r ->. apply IH. simpl in Hl. lia.
      + intros a b c r ->. apply IH. simpl in Hl. lia. }
  intros s. apply (Hn (String.length s)). lia.
Qed.

Lemma lead_space_lstrip_with (s : string) :
  lead_space space1 (lstrip_with space1 s) = false.
Proof.
  induction s as [s IH1 IH2 IH3] using string_ind_upto3.
  destruct s as [|a [|b [|c r]]]; cbn [lstrip_with]; [reflexivity| | |].
  - destruct (space1 a) eqn:Ea; [reflexivity|].
    cbn [lead_space]. rewrite Ea. reflexivity.
  - destruct (space1 a) eqn:Ea; [apply (IH1 a _ eq_refl)|].
    destruct (is_space2 a b) eqn:Eb; [reflexivity|].
    cbn [lead_space]. rewrite Ea, Eb. reflexivity.
  - destruct (space1 a) eqn:Ea; [apply (IH1 a _ eq_refl)|].
    destruct (is_space2 a b) eqn:Eb; [apply (IH2 a b _ eq_refl)|].
    destruct (is_space3 a b c) eqn:Ec; [apply (IH3 a b c _ eq_refl)|].
    cbn [lead_space]. rewrite Ea, Eb, Ec. reflexivity.
Qed.

Lemma lstrip_rstrip_lstrip_with (s : string) :
  lstrip_with space1 (rstrip_with space1 (lstrip_with space1 s))
  = rstrip_with space1 (lstrip_with space1 s).
Proof.
  apply lstrip_with_fixed.
  destruct (lead_space space1 (rstrip_with space1 (lstrip_with space1 s))) eqn:E;
    [|reflexivity].
  destruct (rstrip_with_prefix (lstrip_with space1 s)) as [w Hw].
  pose proof (lead_space_prefix _ w E) as H.
  rewrite <- Hw, lead_space_lstrip_with in H. discriminate.
Qed.

Lemma count_char_lstrip_with sep s :
  (count_char sep (lstrip_with space1 s) <= count_char sep s)%nat.
Proof.
  induction s as [s IH1 IH2 IH3] using string_ind_upto3.
  destruct s as [|a [|b [|c r]]]; cbn [lstrip_with]; [lia| | |].
  - destruct (space1 a); simpl; lia.
  - destruct (space1 a); [pose proof (IH1 a _ eq_refl); simpl in *; lia|].
    destruct (is_space2 a b); simpl; lia.
  - destruct (space1 a); [pose proof (IH1 a _ eq_refl); simpl in *; lia|].
    destruct (is_space2 a b); [pose proof (IH2 a b _ eq_refl); simpl in *; lia|].
    destruct (is_space3 a b c); [pose proof (IH3 a b c _ eq_refl); simpl in *; lia|].
    lia.
Qed.

Lemma count_char_rstrip_with sep s :
  (count_char sep (rstrip_with space1 s) <= count_char sep s)%nat.
Proof.
  induction s as [|c s IH]; [simpl; lia|].
  cbn [rstrip_with]. cbv zeta.
  destruct (is_one_space space1 (String c (rstrip_with space1 s)));
    simpl in *; lia.
Qed.
End Strip.

Lemma strip_idem (s : string) : strip (strip s) = strip s.
Proof.
  unfold strip, lstrip, rstrip.
  rewrite lstrip_rstrip_lstrip_with. apply rstrip_with_idem.
Qed.

Lemma count_char_strip sep s : (count_char sep (strip s) <= count_char sep s)%nat.
Proof.
  unfold strip, lstrip, rstrip.
  pose proof (count_char_rstrip_with is_space sep (lstrip_with is_space s)).
  pose proof (count_char_lstrip_with is_space sep s). lia.
Qed.

Lemma split_parts (sep : ascii) (s : string) :
  Forall (fun p => count_char sep p = O) (split sep s).
Proof.
  induction s as [|c s IH]; simpl; [repeat constructor|].
  destruct (Ascii.eqb c sep) eqn:Ec.
  - constructor; [reflexivity | exact IH].
  - destruct (split sep s) as [|p ps]; [repeat constructor; simpl; now rewrite Ec|].
    inversion IH; subst. constructor; [simpl; rewrite Ec; assumption | assumption].
Qed.

Lemma split_join (sep : ascii) (parts : list string) :
  parts <> [] ->
  Forall (fun p => count_char sep p = O) parts ->
  split sep (join sep parts) = parts.
Proof.
  induction parts as [|p ps IH]; [congruence|].
  intros _ H. inversion H as [|? ? Hp Hps]; subst.
  destruct ps as [|p' ps].
  - simpl. apply split_none. exact Hp.
  - change (join sep (p :: p' :: ps)) with (p ++ String sep (join sep (p' :: ps))).
    rewrite (split_app sep _ _ Hp). rewrite IH by (congruence || assumption).
    reflexivity.
Qed.

(** ** [get_list] *)

Lemma parse_list_parts (s : string) :
  exists parts,
    parse_list s = Ok (VList (map VStr parts)) /\ Forall clean_part parts.
Proof.
  unfold parse_list. eexists. split; [reflexivity|].
  pose proof (split_parts "," s) as H.
  induction H as [|p ps Hp _ IH]; simpl; [constructor|].
  rewrite filter_cons. destruct (decide _) as [Hne|_]; [|exact IH].
  constructor; [|exact IH]. repeat split.
  - intros E. rewrite E in Hne. simpl in Hne. exact Hne.
  - pose proof (count_char_strip "," p). lia.
  - apply strip_idem.
Qed.

(** On a stored string [get_list] cannot fail to convert: without
    [options] it returns a list of strings, each of them not empty, free of
    commas and of white space at its ends.  The empty string, and a string of
    commas and white space only, give the empty list, not [default]. *)
Theorem get_list_parts (key : string) (is_optional is_secret is_local : bool)
    (default : pyval) (self : ConfigManager) (s : string) :
  _params self !! key = Some (VStr s) ->
  (exists parts,
     fst (get_list key is_optional is_secret is_local default None self)
     = Ok (VList (map VStr parts))
     /\ Forall clean_part parts)
  /\ (Forall (fun p => strip p = "") (split "," s) ->
      fst (get_list key is_optional is_secret is_local default None self)
      = Ok (VList [])).
Proof.
  intros Hk. unfold get_list.
  rewrite (_get_typed_value_string _ _ _ _ _ _ _ _ _ _ Hk). cbn [fst].
  unfold on_string. cbn [options_truthy andb].
  split.
  - destruct (parse_list_parts s) as (parts & -> & Hc). eauto.
  - intros H. unfold parse_list.
    replace (filter _ (map strip (split "," s))) with (@nil string); [reflexivity|].
    induction H as [|p ps Hp _ IH]; simpl; [reflexivity|].
    rewrite filter_cons, Hp. simpl. exact IH.
Qed.

Lemma get_list_parts_witness :
  fst (get_list "L" false false false (VInt 0) None (init {[ "L" := VStr " , ," ]}))
  = Ok (VList []).
Proof.
  apply (get_list_parts "L" false false false (VInt 0)
           (init {[ "L" := VStr " , ," ]}) " , ,").
  - reflexivity.
  - repeat constructor.
Defined.

(** Joining and reading back: for parts that are not empty and have neither
    commas nor white space at their ends, [get_list] on their join with
    commas returns these parts, in their order. *)
Theorem get_list_of_join (key : string) (is_optional is_secret is_local : bool)
    (default : pyval) (self : ConfigManager) (parts : list string) :
  Forall clean_part parts ->
  _params self !! key = Some (VStr (join "," parts)) ->
  fst (get_list key is_optional is_secret is_local default None self)
  = Ok (VList (map VStr parts)).
Proof.
  intros Hc Hk. unfold get_list.
  rewrite (_get_typed_value_string _ _ _ _ _ _ _ _ _ _ Hk). cbn [fst].
  unfold on_string. cbn [options_truthy andb]. unfold parse_list.
  assert (Hf : filter (fun part => negb (String.eqb part "")) (map strip parts) = parts).
  { clear Hk. induction Hc as [|x xs (Hne & _ & Hs) _ IH]; [reflexivity|].
    simpl. rewrite Hs, filter_cons.
    destruct (decide _) as [_|Hn].
    - f_equal. exact IH.
    - exfalso. apply Hn. destruct x; [congruence|]. exact I. }
  destruct parts as [|p ps]; [reflexivity|].
  rewrite split_join;
    [|discriminate|eapply Forall_impl; [exact Hc|]; intros x (_ & H & _); exact H].
  rewrite Hf. reflexivity.
Qed.

Lemma get_list_of_join_witness :
  fst (get_list "L" false false false VNone None (init {[ "L" := VStr "a,b c,d" ]}))
  = Ok (VList [VStr "a"; VStr "b c"; VStr "d"]).
Proof.
  apply (get_list_of_join "L" false false false VNone
           (init {[ "L" := VStr "a,b c,d" ]}) ["a"; "b c"; "d"]).
  - repeat constructor; discriminate.
  - reflexivity.
Defined.

(** ** [params_startswith] and [params_endswith] *)

Lemma strip_prefix_spec (p s r : string) :
  strip_prefix p s = Some r <-> s = p ++ r.
Proof.
  revert s. induction p as [|a p IH]; intros s; simpl.
  - split; [intros H; injection H as ->; reflexivity | intros ->; reflexivity].
  - destruct s as [|b s]; [split; discriminate|].
    rewrite append_cons. destruct (Ascii.eqb_spec a b) as [->|Hne].
    + rewrite IH. split; [intros ->; reflexivity | intros H; injection H; auto].
    + split; [discriminate | intros H; injection H; congruence].
Qed.

Lemma startswith_spec (s term : string) :
  startswith s term = true <-> exists rest, s = term ++ rest.
Proof.
  unfold startswith. destruct (strip_prefix term s) as [r|] eqn:E.
  - apply strip_prefix_spec in E. split; eauto.
  - split; [discriminate|]. intros [rest H]. apply strip_prefix_spec in H. congruence.
Qed.

Lemma endswith_spec (s term : string) :
  endswith s term = true <-> exists before, s = before ++ term.
Proof.
  induction s as [|c s IH].
  - change (endswith "" term) with (String.eqb "" term || false).
    rewrite orb_false_r. split.
    + intros H. apply String.eqb_eq in H. subst. exists "". reflexivity.
    + intros [[|d b] H]; [|discriminate].
      change ("" = term) in H. subst. reflexivity.
  - change (endswith (String c s) term)
      with (String.eqb (String c s) term || endswith s term).
    rewrite orb_true_iff, IH. split.
    + intros [H|[b H]].
      * apply String.eqb_eq in H. exists "". exact H.
      * exists (String c b). rewrite append_cons, H. reflexivity.
    + intros [[|d b] H].
      * left. apply String.eqb_eq. exact H.
      * right. rewrite append_cons in H. injection H as _ H. eauto.
Qed.

(** [params_startswith] returns the keys of [_params] that begin with the
    term, and [params_endswith] those that end with it, each once; with the
    empty term both return every key. *)
Theorem params_startswith_endswith (term : string) (self : ConfigManager) :
  (forall k, k ∈ params_startswith term self
             <-> is_Some (_params self !! k) /\ exists rest, k = term ++ rest)
  /\ (forall k, k ∈ params_endswith term self
                <-> is_Some (_params self !! k) /\ exists before, k = before ++ term)
  /\ NoDup (params_startswith term self)
  /\ NoDup (params_endswith term self)
  /\ (forall k, is_Some (_params self !! k) ->
        k ∈ params_startswith "" self /\ k ∈ params_endswith "" self).
Proof.
  assert (Hk : forall k, k ∈ params_keys self <-> is_Some (_params self !! k)).
  { intros k. unfold params_keys. rewrite elem_of_elements, elem_of_dom. reflexivity. }
  assert (Hs : forall t k, k ∈ params_startswith t self
                 <-> is_Some (_params self !! k) /\ exists rest, k = t ++ rest).
  { intros t k. unfold params_startswith.
    rewrite list_elem_of_filter, Hk, startswith_spec. tauto. }
  assert (He : forall t k, k ∈ params_endswith t self
                 <-> is_Some (_params self !! k) /\ exists before, k = before ++ t).
  { intros t k. unfold params_endswith.
    rewrite list_elem_of_filter, Hk, endswith_spec. tauto. }
  split; [apply Hs|]. split; [apply He|].
  assert (Hnd : NoDup (params_keys self)) by (unfold params_keys; apply NoDup_elements).
  split; [apply NoDup_filter; exact Hnd|].
  split; [apply NoDup_filter; exact Hnd|].
  intros k H. split.
  - apply Hs. split; [exact H|]. exists k. reflexivity.
  - apply He. split; [exact H|]. exists k.
    clear. induction k as [|c k IH]; [reflexivity|]. rewrite append_cons, <- IH.
    reflexivity.
Qed.

(** * The pulse check *)

Lemma _check_pulse_bound (projects : Z -> option Project)
    (self : NotebookDockerBuilder) (check_pulse : Z) :
  snd (snd (_check_pulse projects self check_pulse)) = false ->
  fst (snd (_check_pulse projects self check_pulse)) <= Z.max 0 (CHECK_INTERVAL self).
Proof.
  unfold _check_pulse.
  destruct (Z.ltb_spec (CHECK_INTERVAL self) check_pulse) as [Hlt|Hge]; simpl; [|lia].
  destruct (projects (project_id self)) as [project|]; simpl; [|discriminate].
  destruct (negb (has_notebook project) || _); simpl; [discriminate|lia].
Qed.

(** When [_check_pulse] lets the build go on it has logged nothing, and the
    counter it returns is the one it was given or [0], and at most the
    larger of [0] and the interval.  When it says to stop, the counter is
    the one it was given, which is above the interval, the project is
    missing or has no notebook, and one message was logged, naming the
    project. *)
Theorem _check_pulse_outcome (projects : Z -> option Project)
    (self : NotebookDockerBuilder) (check_pulse : Z) :
  let '(log, (pulse, stop)) := _check_pulse projects self check_pulse in
  (stop = false ->
   log = [] /\ (pulse = check_pulse \/ pulse = 0)
   /\ pulse <= Z.max 0 (CHECK_INTERVAL self))
  /\ (stop = true ->
      pulse = check_pulse /\ CHECK_INTERVAL self < check_pulse
      /\ (projects (project_id self) = None
          \/ exists project,
               projects (project_id self) = Some project
               /\ (has_notebook project = false \/ notebook project = None))
      /\ exists msg, log = [msg] /\ names (project_name self) msg).
Proof.
  unfold _check_pulse.
  destruct (Z.ltb_spec (CHECK_INTERVAL self) check_pulse) as [Hlt|Hge].
  - destruct (projects (project_id self)) as [project|] eqn:Hp.
    + assert (Hmsg : names (project_name self)
                       ("Project `" ++ project_name self
                        ++ "` does not have a notebook anymore, stopping build")).
      { exists "Project `", "` does not have a notebook anymore, stopping build".
        reflexivity. }
      destruct (has_notebook project) eqn:Hn; [destruct (notebook project) eqn:Hb|];
        simpl.
      * split; [|discriminate]. intros _. repeat split; [right; reflexivity | lia].
      * split; [discriminate|]. intros _.
        split; [reflexivity|]. split; [exact Hlt|]. split; [|eauto].
        right. exists project. auto.
      * split; [discriminate|]. intros _.
        split; [reflexivity|]. split; [exact Hlt|]. split; [|eauto].
        right. exists project. auto.
    + split; [discriminate|]. intros _.
      split; [reflexivity|]. split; [exact Hlt|]. split; [left; reflexivity|].
      eexists. split; [reflexivity|].
      exists "Project `", "` does not exist anymore, stopping build". reflexivity.
  - split; [|discriminate]. intros _. repeat split; [left; reflexivity | lia].
Qed.

(** At or below the interval [_check_pulse] does not look at the projects:
    whatever they are, it logs nothing and hands the counter back.  So,
    with an interval that is not negative, the call that follows one that
    let the build go on does the same. *)
Theorem _check_pulse_within_interval (projects projects' : Z -> option Project)
    (self : NotebookDockerBuilder) (check_pulse : Z) :
  (check_pulse <= CHECK_INTERVAL self ->
   _check_pulse projects self check_pulse = ([], (check_pulse, false)))
  /\ (0 <= CHECK_INTERVAL self ->
      snd (snd (_check_pulse projects self check_pulse)) = false ->
      let pulse := fst (snd (_check_pulse projects self check_pulse)) in
      _check_pulse projects' self pulse = ([], (pulse, false))).
Proof.
  assert (H : forall table pulse,
             pulse <= CHECK_INTERVAL self ->
             _check_pulse table self pulse = ([], (pulse, false))).
  { intros table pulse Hle. unfold _check_pulse.
    destruct (Z.ltb_spec (CHECK_INTERVAL self) pulse); [lia|reflexivity]. }
  split; [apply H|].
  intros Hi Hstop. cbv zeta. apply H.
  pose proof (_check_pulse_bound projects self check_pulse) as Hb.
  destruct (_check_pulse projects self check_pulse) as [log [pulse stop]].
  simpl in *. subst stop. specialize (Hb eq_refl). lia.
Qed.

Lemma _check_pulse_within_interval_witness :
  let self := {| CHECK_INTERVAL := 10; project_id := 1; project_name := "p" |} in
  _check_pulse (fun _ => None) self 10 = ([], (10, false)).
Proof.
  cbv zeta.
  destruct (_check_pulse_within_interval (fun _ => None) (fun _ => None)
              {| CHECK_INTERVAL := 10; project_id := 1; project_name := "p" |} 10)
    as [H _].
  apply H. simpl. lia.
Defined.

(** * [_decode] and [decode_iterations] *)

Lemma py_int_ok s v : py_int s = Ok v -> isinstance v Tint = true.
Proof.
  unfold py_int. destruct (match strip_c _ with String _ _ => _ | _ => _ end).
  destruct (digits_value _ _ _); intros H; inversion H; reflexivity.
Qed.

Lemma get_int_single_ok key io isc ilo d self v :
  isinstance d Tint = true ->
  fst (get_int key false io isc ilo d None self) = Ok v ->
  isinstance v Tint = true.
Proof.
  intros Hd. unfold get_int.
  destruct (_params self !! key) as [value|] eqn:Hk.
  - destruct (isinstance value Tstr) eqn:Hs.
    + destruct value; try discriminate Hs.
      rewrite (_get_typed_value_string _ _ _ _ _ _ _ _ _ _ Hk). cbn [fst].
      unfold on_string. cbn [options_truthy andb].
      destruct (py_int s) as [y|[]] eqn:E; try discriminate.
      intros H. injection H as <-. eapply py_int_ok; eassumption.
    + destruct (isinstance value Tint) eqn:Ht.
      * rewrite (_get_typed_value_native _ _ _ _ _ _ _ _ _ _ Hk Hs Ht). cbn [fst].
        unfold on_native. cbn [options_truthy andb].
        intros H. injection H as <-. exact Ht.
      * rewrite (_get_typed_value_wrong _ _ _ _ _ _ _ _ _ _ Hk Hs Ht). discriminate.
  - rewrite (_get_typed_value_absent _ _ _ _ _ _ _ _ _ Hk). cbn [fst].
    destruct io; [|discriminate]. intros H. injection H as <-. exact Hd.
Qed.

Lemma getters_int_raise key self e :
  fst (get_int key false true false false (VInt 1) None self) = Raise e ->
  exists ce, e = EConfigurationError ce.
Proof.
  intros H.
  destruct (fetch_raises (Call GetInt key false true false false (VInt 1) None) self e)
    as [Hce | [_ Hd]]; [exact H | exact Hce | discriminate Hd].
Qed.

Lemma bookkeeping_cache_kept c self :
  decode_iterations_cache (snd (run_call c self)) = decode_iterations_cache self.
Proof.
  rewrite run_call_state.
  destruct (_params self !! call_key c) as [v|]; [|reflexivity].
  destruct (accepted v (fetch_type c)); reflexivity.
Qed.

Lemma params_cache_run_calls cs self :
  decode_iterations_cache (run_calls cs self) = decode_iterations_cache self.
Proof.
  revert self. induction cs as [|c cs IH]; intros self; simpl; [reflexivity|].
  rewrite IH. apply bookkeeping_cache_kept.
Qed.

(** [decode_iterations] is computed once.  From an instance that has not
    computed it, an access that returns yields an integer, keeps it, and
    leaves [_params] alone; every later access returns the same value
    without changing the instance, also after typed getter calls.  An access
    that raises raises a [ConfigurationError] and keeps nothing. *)
Theorem decode_iterations_is_cached (self : ConfigManager) :
  decode_iterations_cache self = None ->
  let r := decode_iterations self in
  _params (snd r) = _params self
  /\ (forall v, fst r = Ok v ->
        isinstance v Tint = true
        /\ (exists n, range_length v = Ok n)
        /\ decode_iterations_cache (snd r) = Some v
        /\ forall cs,
             decode_iterations (run_calls cs (snd r)) = (Ok v, run_calls cs (snd r)))
  /\ (forall e, fst r = Raise e ->
        (exists ce, e = EConfigurationError ce)
        /\ decode_iterations_cache (snd r) = None).
Proof.
  intros Hc. cbv zeta. unfold decode_iterations. rewrite Hc.
  pose proof (get_int_single_ok "_POLYAXON_DECODE_ITERATION" true false false
                (VInt 1) self) as Hint.
  pose proof (getters_int_raise "_POLYAXON_DECODE_ITERATION" self) as Hraise.
  pose proof (run_call_params
                (Call GetInt "_POLYAXON_DECODE_ITERATION" false true false false
                   (VInt 1) None) self) as Hp.
  pose proof (bookkeeping_cache_kept
                (Call GetInt "_POLYAXON_DECODE_ITERATION" false true false false
                   (VInt 1) None) self) as Hk.
  cbn [run_call getter_method] in Hp, Hk.
  destruct (get_int "_POLYAXON_DECODE_ITERATION" false true false false (VInt 1) None self)
    as [[v|e] self'] eqn:E; cbn [fst snd] in *.
  - split; [exact Hp|]. split; [|discriminate].
    intros v' H. injection H as <-.
    pose proof (Hint v eq_refl eq_refl) as Hv.
    split; [exact Hv|]. split.
    + destruct v; try discriminate Hv; simpl; eauto.
    + split; [reflexivity|]. intros cs.
      rewrite (params_cache_run_calls cs). reflexivity.
  - split; [exact Hp|]. split; [discriminate|].
    intros e' H. injection H as <-. split; [apply Hraise; reflexivity|].
    rewrite Hk. exact Hc.
Qed.

Lemma decode_iterations_is_cached_witness :
  let self := init {[ "_POLYAXON_DECODE_ITERATION" := VStr "2" ]} in
  fst (decode_iterations self) = Ok (VInt 2)
  /\ decode_iterations_cache (snd (decode_iterations self)) = Some (VInt 2).
Proof.
  cbv zeta.
  destruct (decode_iterations_is_cached
              (init {[ "_POLYAXON_DECODE_ITERATION" := VStr "2" ]}) eq_refl)
    as (_ & H & _).
  split; [reflexivity|].
  apply (H (VInt 2) eq_refl).
Defined.

(** The count of [_decode].  A count that is falsy, of whatever type, stands
    for [decode_iterations].  A negative count makes no pass: the value comes
    back as it is.  [True] makes one pass.  A truthy count that is no
    integer raises [TypeError], with the instance untouched. *)
Theorem _decode_count (value : string) (iteration : pyval) (self : ConfigManager) :
  (truthy iteration = false ->
   _decode value (Some iteration) self = _decode value (Some VNone) self)
  /\ (forall n, iteration = VInt n -> n < 0 ->
        _decode value (Some iteration) self = (Ok value, self))
  /\ (iteration = VBool true ->
      _decode value (Some iteration) self = (_decode_once value, self))
  /\ (truthy iteration = true -> isinstance iteration Tint = false ->
      _decode value (Some iteration) self = (Raise ETypeError, self)).
Proof.
  unfold _decode, bind, lift, ret.
  split; [|split; [|split]].
  - intros ->. reflexivity.
  - intros n -> Hn. simpl.
    destruct (Z.eqb_spec n 0); [lia|]. simpl.
    destruct n; try lia. reflexivity.
  - intros ->. simpl. destruct (_decode_once value); reflexivity.
  - intros Ht Hi. rewrite Ht. destruct iteration; try discriminate; reflexivity.
Qed.

Lemma _decode_count_witness :
  _decode "aGk=" (Some (VInt (-2))) (init ∅) = (Ok "aGk=", init ∅)
  /\ _decode "aGk=" (Some (VStr "2")) (init ∅) = (Raise ETypeError, init ∅).
Proof.
  split.
  - apply (_decode_count "aGk=" (VInt (-2)) (init ∅)) with (n := -2);
      [reflexivity | lia].
  - apply (_decode_count "aGk=" (VStr "2") (init ∅)); reflexivity.
Defined.

(** * [_encode] and [_decode] back *)

Lemma code_range (c : ascii) : 0 <= code c < 256.
Proof.
  unfold code. pose proof (N_ascii_bounded c). lia.
Qed.

Lemma byte_of_code (c : ascii) : byte_of (code c) = c.
Proof. unfold byte_of, code. rewrite N2Z.id. apply ascii_N_embedding. Qed.

(** The alphabet: sixty-four characters of ASCII, none of them the pad, each
    with its own value. *)
Lemma b64_alphabet (v : Z) :
  0 <= v < 64 ->
  b64_value (b64_char v) = Some v
  /\ Ascii.eqb (b64_char v) "=" = false
  /\ (code (b64_char v) <? 128) = true.
Proof.
  intros Hv.
  assert (Hall : forallb (fun n =>
                   let v := Z.of_nat n in
                   match b64_value (b64_char v) with
                   | Some w => w =? v
                   | None => false
                   end
                   && negb (Ascii.eqb (b64_char v) "=")
                   && (code (b64_char v) <? 128)) (seq 0 64) = true)
    by (vm_compute; reflexivity).
  rewrite forallb_forall in Hall.
  specialize (Hall (Z.to_nat v)).
  rewrite Z2Nat.id in Hall by lia.
  assert (Hin : In (Z.to_nat v) (seq 0 64)) by (apply in_seq; lia).
  specialize (Hall Hin). cbv zeta in Hall.
  apply andb_true_iff in Hall. destruct Hall as [Hall H3].
  apply andb_true_iff in Hall. destruct Hall as [H1 H2].
  destruct (b64_value (b64_char v)) as [w|]; [|discriminate].
  apply Z.eqb_eq in H1. subst w.
  apply negb_true_iff in H2. auto.
Qed.

(** One character of the alphabet through [a2b_base64]. *)
Lemma a2b_base64_char (v : Z) (r : string) (quad_pos leftchar leftbits : Z) :
  0 <= v < 64 ->
  a2b_base64 (String (b64_char v) r) quad_pos leftchar leftbits
  = if 8 <=? leftbits + 6 then
      match a2b_base64 r ((quad_pos + 1) mod 4)
              ((leftchar * 64 + v) mod 2 ^ (leftbits + 6 - 8)) (leftbits + 6 - 8) with
      | Some out =>
          Some (String (byte_of (((leftchar * 64 + v) / 2 ^ (leftbits + 6 - 8)) mod 256))
                  out)
      | None => None
      end
    else a2b_base64 r ((quad_pos + 1) mod 4) (leftchar * 64 + v) (leftbits + 6).
Proof.
  intros Hv. destruct (b64_alphabet v Hv) as (H1 & H2 & _).
  cbn [a2b_base64]. rewrite H2, H1. reflexivity.
Qed.

Lemma a2b_base64_three (a b c : ascii) (r : string) :
  let x := (code a * 256 + code b) * 256 + code c in
  a2b_base64
    (String (b64_char (x / 262144))
       (String (b64_char ((x / 4096) mod 64))
          (String (b64_char ((x / 64) mod 64))
             (String (b64_char (x mod 64)) r)))) 0 0 0
  = match a2b_base64 r 0 0 0 with
    | Some out => Some (String a (String b (String c out)))
    | None => None
    end.
Proof.
  cbv zeta.
  pose proof (code_range a) as Ha. pose proof (code_range b) as Hb.
  pose proof (code_range c) as Hc.
  set (x := (code a * 256 + code b) * 256 + code c).
  assert (Hx : 0 <= x < 16777216) by (unfold x; lia).
  rewrite (a2b_base64_char (x / 262144)) by (Z.div_mod_to_equations; lia).
  change (8 <=? 0 + 6) with false. cbv iota.
  rewrite (a2b_base64_char ((x / 4096) mod 64)) by (Z.div_mod_to_equations; lia).
  change (8 <=? 0 + 6 + 6) with true. cbv iota.
  rewrite (a2b_base64_char ((x / 64) mod 64)) by (Z.div_mod_to_equations; lia).
  change (8 <=? 0 + 6 + 6 - 8 + 6) with true. cbv iota.
  rewrite (a2b_base64_char (x mod 64)) by (Z.div_mod_to_equations; lia).
  change (8 <=? 0 + 6 + 6 - 8 + 6 - 8 + 6) with true. cbv iota.
  change (2 ^ (0 + 6 + 6 - 8)) with 16.
  change (2 ^ (0 + 6 + 6 - 8 + 6 - 8)) with 4.
  change (2 ^ (0 + 6 + 6 - 8 + 6 - 8 + 6 - 8)) with 1.
  change (((((0 + 1) mod 4 + 1) mod 4 + 1) mod 4 + 1) mod 4) with 0.
  change (0 + 6 + 6 - 8 + 6 - 8 + 6 - 8) with 0.
  rewrite Z.mod_1_r.
  replace (((0 * 64 + x / 262144) * 64 + (x / 4096) mod 64) / 16 mod 256)
    with (code a) by (unfold x; Z.div_mod_to_equations; lia).
  replace (((((0 * 64 + x / 262144) * 64 + (x / 4096) mod 64) mod 16 * 64
             + (x / 64) mod 64) / 4) mod 256)
    with (code b) by (unfold x; Z.div_mod_to_equations; lia).
  replace ((((((0 * 64 + x / 262144) * 64 + (x / 4096) mod 64) mod 16 * 64
              + (x / 64) mod 64) mod 4 * 64 + x mod 64) / 1) mod 256)
    with (code c) by (unfold x; Z.div_mod_to_equations; lia).
  rewrite !byte_of_code.
  destruct (a2b_base64 r 0 0 0); reflexivity.
Qed.

Lemma a2b_base64_one (a : ascii) :
  let x := code a in
  a2b_base64 (String (b64_char (x / 4)) (String (b64_char ((x mod 4) * 16)) "==")) 0 0 0
  = Some (String a EmptyString).
Proof.
  cbv zeta. pose proof (code_range a) as Ha.
  rewrite (a2b_base64_char (code a / 4)) by (Z.div_mod_to_equations; lia).
  change (8 <=? 0 + 6) with false. cbv iota.
  rewrite (a2b_base64_char ((code a mod 4) * 16)) by (Z.div_mod_to_equations; lia).
  change (8 <=? 0 + 6 + 6) with true. cbv iota.
  change (2 ^ (0 + 6 + 6 - 8)) with 16.
  change (((0 + 1) mod 4 + 1) mod 4) with 2.
  change (0 + 6 + 6 - 8) with 4.
  replace (((0 * 64 + code a / 4) * 64 + code a mod 4 * 16) / 16 mod 256)
    with (code a) by (Z.div_mod_to_equations; lia).
  rewrite byte_of_code. reflexivity.
Qed.

Lemma a2b_base64_two (a b : ascii) :
  let x := code a * 256 + code b in
  a2b_base64
    (String (b64_char (x / 1024))
       (String (b64_char ((x / 16) mod 64))
          (String (b64_char ((x mod 16) * 4)) "="))) 0 0 0
  = Some (String a (String b EmptyString)).
Proof.
  cbv zeta. pose proof (code_range a) as Ha. pose proof (code_range b) as Hb.
  set (x := code a * 256 + code b).
  assert (Hx : 0 <= x < 65536) by (unfold x; lia).
  rewrite (a2b_base64_char (x / 1024)) by (Z.div_mod_to_equations; lia).
  change (8 <=? 0 + 6) with false. cbv iota.
  rewrite (a2b_base64_char ((x / 16) mod 64)) by (Z.div_mod_to_equations; lia).
  change (8 <=? 0 + 6 + 6) with true. cbv iota.
  rewrite (a2b_base64_char ((x mod 16) * 4)) by (Z.div_mod_to_equations; lia).
  change (8 <=? 0 + 6 + 6 - 8 + 6) with true. cbv iota.
  change (2 ^ (0 + 6 + 6 - 8)) with 16.
  change (2 ^ (0 + 6 + 6 - 8 + 6 - 8)) with 4.
  change ((((0 + 1) mod 4 + 1) mod 4 + 1) mod 4) with 3.
  change (0 + 6 + 6 - 8 + 6 - 8) with 2.
  replace (((0 * 64 + x / 1024) * 64 + (x / 16) mod 64) / 16 mod 256)
    with (code a) by (unfold x; Z.div_mod_to_equations; lia).
  replace (((((0 * 64 + x / 1024) * 64 + (x / 16) mod 64) mod 16 * 64
             + x mod 16 * 4) / 4) mod 256)
    with (code b) by (unfold x; Z.div_mod_to_equations; lia).
  rewrite !byte_of_code. reflexivity.
Qed.

(** Induction on a string three characters at a time. *)
Lemma string_ind3 (P : string -> Prop) :
  P EmptyString ->
  (forall a, P (String a EmptyString)) ->
  (forall a b, P (String a (String b EmptyString))) ->
  (forall a b c r, P r -> P (String a (String b (String c r)))) ->
  forall s, P s.
Proof.
  intros H0 H1 H2 H3.
  assert (H : forall s, P s /\ (forall a, P (String a s))
                        /\ (forall a b, P (String a (String b s)))).
  { induction s as [|c s (IHs & IH1 & IH2)].
    - repeat split; auto.
    - repeat split; auto. }
  intros s. apply H.
Qed.

(** Decoding what [b64encode] made gives the bytes back, whatever they
    are. *)
Lemma b64decode_b64encode (s : string) : a2b_base64 (b64encode s) 0 0 0 = Some s.
Proof.
  induction s as [|a|a b|a b c r IH] using string_ind3.
  - reflexivity.
  - apply a2b_base64_one.
  - apply a2b_base64_two.
  - change (b64encode (String a (String b (String c r))))
      with (let x := (code a * 256 + code b) * 256 + code c in
            String (b64_char (x / 262144))
              (String (b64_char ((x / 4096) mod 64))
                 (String (b64_char ((x / 64) mod 64))
                    (String (b64_char (x mod 64)) (b64encode r))))).
    cbv zeta. rewrite (a2b_base64_three a b c (b64encode r)). rewrite IH. reflexivity.
Qed.

Lemma is_ascii_cons (c : ascii) (s : string) :
  is_ascii (String c s) = (code c <? 128) && is_ascii s.
Proof. reflexivity. Qed.

Lemma b64encode_is_ascii (s : string) : is_ascii (b64encode s) = true.
Proof.
  induction s as [|a|a b|a b c r IH] using string_ind3.
  - reflexivity.
  - pose proof (code_range a) as Ha.
    change (b64encode (String a EmptyString))
      with (String (b64_char (code a / 4))
              (String (b64_char ((code a mod 4) * 16)) "==")).
    rewrite !is_ascii_cons.
    destruct (b64_alphabet (code a / 4)) as (_ & _ & ->);
      [Z.div_mod_to_equations; lia|].
    destruct (b64_alphabet ((code a mod 4) * 16)) as (_ & _ & ->);
      [Z.div_mod_to_equations; lia|].
    reflexivity.
  - pose proof (code_range a) as Ha. pose proof (code_range b) as Hb.
    change (b64encode (String a (String b EmptyString)))
      with (let x := code a * 256 + code b in
            String (b64_char (x / 1024))
              (String (b64_char ((x / 16) mod 64))
                 (String (b64_char ((x mod 16) * 4)) "="))).
    cbv zeta. rewrite !is_ascii_cons.
    destruct (b64_alphabet ((code a * 256 + code b) / 1024)) as (_ & _ & ->);
      [Z.div_mod_to_equations; lia|].
    destruct (b64_alphabet (((code a * 256 + code b) / 16) mod 64)) as (_ & _ & ->);
      [Z.div_mod_to_equations; lia|].
    destruct (b64_alphabet (((code a * 256 + code b) mod 16) * 4)) as (_ & _ & ->);
      [Z.div_mod_to_equations; lia|].
    reflexivity.
  - pose proof (code_range a) as Ha. pose proof (code_range b) as Hb.
    pose proof (code_range c) as Hc.
    change (b64encode (String a (String b (String c r))))
      with (let x := (code a * 256 + code b) * 256 + code c in
            String (b64_char (x / 262144))
              (String (b64_char ((x / 4096) mod 64))
                 (String (b64_char ((x / 64) mod 64))
                    (String (b64_char (x mod 64)) (b64encode r))))).
    cbv zeta. rewrite !is_ascii_cons, IH.
    set (x := (code a * 256 + code b) * 256 + code c).
    assert (Hx : 0 <= x < 16777216) by (unfold x; lia).
    destruct (b64_alphabet (x / 262144)) as (_ & _ & ->);
      [Z.div_mod_to_equations; lia|].
    destruct (b64_alphabet ((x / 4096) mod 64)) as (_ & _ & ->);
      [Z.div_mod_to_equations; lia|].
    destruct (b64_alphabet ((x / 64) mod 64)) as (_ & _ & ->);
      [Z.div_mod_to_equations; lia|].
    destruct (b64_alphabet (x mod 64)) as (_ & _ & ->);
      [Z.div_mod_to_equations; lia|].
    reflexivity.
Qed.

Lemma utf8_valid_ascii (s : string) (fuel : nat) :
  is_ascii s = true -> (String.length s < fuel)%nat -> utf8_valid fuel s = true.
Proof.
  revert fuel. induction s as [|c s IH]; intros fuel Ha Hl.
  - destruct fuel; [simpl in Hl; lia|reflexivity].
  - destruct fuel; [simpl in Hl; lia|].
    rewrite is_ascii_cons in Ha. apply andb_true_iff in Ha. destruct Ha as [Hc Hs].
    cbn [utf8_valid]. rewrite Hc. apply IH; [exact Hs|]. simpl in Hl. lia.
Qed.

Lemma _decode_once_encode (s : string) : _decode_once (_encode s) = decode_utf8 s.
Proof.
  unfold _decode_once, _encode, b64decode.
  rewrite b64encode_is_ascii, b64decode_b64encode. reflexivity.
Qed.

Lemma decode_utf8_encode (s : string) : decode_utf8 (_encode s) = Ok (_encode s).
Proof.
  unfold decode_utf8, _encode.
  rewrite utf8_valid_ascii; [reflexivity|apply b64encode_is_ascii|lia].
Qed.

Lemma decode_loop_encode_times (n : nat) (s : string) :
  decode_utf8 s = Ok s -> decode_loop n (encode_times n s) = Ok s.
Proof.
  intros Hs. induction n as [|n IH]; [reflexivity|].
  cbn [encode_times decode_loop]. rewrite _decode_once_encode.
  destruct n as [|n].
  - cbn [encode_times]. rewrite Hs. reflexivity.
  - cbn [encode_times]. rewrite decode_utf8_encode. exact IH.
Qed.

(** What [_encode] made, [_decode] reads back.  For a text [s], as
    well-formed UTF-8: one [_decode_once] undoes one [_encode]; [_decode]
    with the count [n] undoes [n] encodings; and [_decode] without a count
    undoes three.  What [_encode] returns is ASCII. *)
Theorem _decode_of_encode (s : string) (n : nat) (self : ConfigManager) :
  decode_utf8 s = Ok s ->
  _decode_once (_encode s) = Ok s
  /\ ((0 < n)%nat ->
      _decode (encode_times n s) (Some (VInt (Z.of_nat n))) self = (Ok s, self))
  /\ _decode (_encode (_encode (_encode s))) None self = (Ok s, self)
  /\ is_ascii (_encode s) = true.
Proof.
  intros Hs. split; [rewrite _decode_once_encode; exact Hs|]. split; [|split].
  - intros Hn. unfold _decode, bind, lift, ret. simpl.
    destruct (Z.eqb_spec (Z.of_nat n) 0); [lia|]. simpl.
    rewrite Nat2Z.id. rewrite (decode_loop_encode_times n s Hs). reflexivity.
  - change (_encode (_encode (_encode s))) with (encode_times 3 s).
    transitivity (decode_loop 3 (encode_times 3 s), self); [reflexivity|].
    rewrite (decode_loop_encode_times 3 s Hs). reflexivity.
  - apply b64encode_is_ascii.
Qed.

Lemma _decode_of_encode_witness :
  _decode (encode_times 2 "héllo") (Some (VInt 2)) (init ∅) = (Ok "héllo", init ∅).
Proof.
  destruct (_decode_of_encode "héllo" 2 (init ∅)) as (_ & H & _).
  - vm_compute. reflexivity.
  - apply H. lia.
Defined.

(** * What the getters return *)

Lemma getter_convert_type g key s v :
  getter_convert g key s = Ok v -> isinstance v (getter_type g) = true.
Proof.
  destruct g; simpl.
  - apply py_int_ok.
  - unfold py_float. destruct (py_float_value s); intros H; inversion H; reflexivity.
  - unfold convert_bool. destruct (strtobool s); intros H; inversion H; reflexivity.
  - unfold py_str. intros H; inversion H; reflexivity.
  - unfold convert_to_dict. destruct (json_loads s) as [x|]; [|discriminate].
    destruct (isinstance x TMapping) eqn:E; intros H; inversion H; subst; exact E.
  - unfold parse_uri_spec.
    destruct (split "@" s) as [|a [|b [|? ?]]]; try discriminate.
    destruct (split ":" a) as [|u [|w [|? ?]]]; try discriminate.
    intros H; inversion H; reflexivity.
Qed.

(** What a fetch returns for a call that is not a list form: the default,
    or a value of the type asked for. *)
Lemma fetch_single_ok c self v :
  call_is_list c = false ->
  fst (fetch c self) = Ok v ->
  v = call_default c \/ isinstance v (fetch_type c) = true.
Proof.
  intros Hl. unfold fetch.
  destruct (_params self !! call_key c) as [value|] eqn:Hk.
  - destruct (isinstance value Tstr) eqn:Hs.
    + destruct value; try discriminate Hs.
      rewrite (_get_typed_value_string _ _ _ _ _ _ _ _ _ _ Hk). cbn [fst].
      unfold on_string. destruct (options_truthy _ && _); [discriminate|].
      destruct (fetch_convert c s) as [y|[]] eqn:Ec; try discriminate.
      intros H. injection H as <-. right.
      destruct c as [g key il io isc ilo d o|key io isc ilo d o]; simpl in *.
      * subst il. eapply getter_convert_type; eassumption.
      * unfold parse_list in Ec. injection Ec as <-. reflexivity.
    + destruct (isinstance value (fetch_type c)) eqn:Ht.
      * rewrite (_get_typed_value_native _ _ _ _ _ _ _ _ _ _ Hk Hs Ht). cbn [fst].
        unfold on_native. destruct (options_truthy _ && _); [discriminate|].
        intros H. injection H as <-. right. exact Ht.
      * rewrite (_get_typed_value_wrong _ _ _ _ _ _ _ _ _ _ Hk Hs Ht). discriminate.
  - rewrite (_get_typed_value_absent _ _ _ _ _ _ _ _ _ Hk). cbn [fst].
    destruct (call_is_optional c); [|discriminate].
    intros H. injection H as <-. left. reflexivity.
Qed.

Lemma convert_elements_typed g key l xs :
  convert_elements key (getter_type g) (getter_convert g key) l = Ok xs ->
  Forall (fun x => isinstance x (getter_type g) = true) xs.
Proof.
  intros Ec. apply (convert_elements_ok key) in Ec.
  induction Ec as [|x y l xs Hxy _ IH]; constructor; [|exact IH].
  unfold converts in Hxy. destruct x as [| | | |s| | |];
    try (match type of Hxy with
         | _ /\ _ => destruct Hxy as [Hx Hy]; rewrite Hy; exact Hx
         end).
  eapply getter_convert_type; eassumption.
Qed.

(** A typed getter returns a value of its type, or [default].  In its
    single form what is returned is [default] or an instance of the target
    type ([list] for [get_list]); in its list form it is [default] or a list
    all of whose elements are instances of the target type. *)
Theorem getters_return_typed_values (c : call) (self : ConfigManager) (v : pyval) :
  fst (run_call c self) = Ok v ->
  v = call_default c
  \/ (call_is_list c = false /\ isinstance v (fetch_type c) = true)
  \/ (call_is_list c = true
      /\ exists l,
           v = VList l
           /\ Forall (fun x => isinstance x (element_type c) = true) l).
Proof.
  rewrite run_call_eq. cbn [fst].
  destruct (fst (fetch c self)) as [value|e] eqn:Hf; [|discriminate].
  destruct (call_is_list c) eqn:Hl.
  - destruct c as [g key il io isc ilo d o|key io isc ilo d o]; simpl in Hl;
      [subst il|discriminate].
    simpl. destruct (truthy value); simpl; [|intros H; injection H as <-; auto].
    destruct value; try discriminate.
    destruct (convert_elements key (getter_type g) (getter_convert g key) l)
      as [xs|] eqn:Ec; [|discriminate].
    intros H. injection H as <-. right. right. split; [reflexivity|].
    exists xs. split; [reflexivity|]. eapply convert_elements_typed; eassumption.
  - pose proof (fetch_single_ok c self value Hl Hf) as Hv.
    destruct c as [g key il io isc ilo d o|key io isc ilo d o]; simpl in *.
    + subst il. destruct g; simpl;
        try (intros H; injection H as <-; destruct Hv; auto).
      destruct (truthy value); simpl; [|intros H; injection H as <-; auto].
      destruct value; simpl; try discriminate.
      intros H; injection H as <-. auto.
    + intros H; injection H as <-. destruct Hv; auto.
Qed.

Lemma getters_return_typed_values_witness :
  isinstance (VList [VInt 1; VInt 2]) Tlist = true
  /\ exists l,
       VList [VInt 1; VInt 2] = VList l
       /\ Forall (fun x => isinstance x Tint = true) l.
Proof.
  destruct (getters_return_typed_values
              (Call GetInt "K" true false false false VNone None)
              (init {[ "K" := VStr ("[1, " ++ q ++ "2" ++ q ++ "]") ]})
              (VList [VInt 1; VInt 2]))
    as [H | [[H _] | [_ H]]].
  - vm_compute. reflexivity.
  - discriminate H.
  - discriminate H.
  - split; [reflexivity | exact H].
Defined.

(** A call with [options] that returns on a present key has found a stored
    value that is one of the options: no stored value outside a list of
    options that has a member gets through a getter.  This is for a stored
    value that equals itself, which leaves out the values with a NaN in
    them; such a value is let through when it is the very object that is in
    the list. *)
Theorem options_guard_stored_values (c : call) (self : ConfigManager)
    (value v : pyval) :
  py_eq value value = true ->
  options_truthy (call_options c) = true ->
  _params self !! call_key c = Some value ->
  fst (run_call c self) = Ok v ->
  value_in value (call_options c) = true.
Proof.
  intros _ Ho Hk. rewrite run_call_eq. cbn [fst]. unfold fetch.
  destruct (isinstance value Tstr) eqn:Hs.
  - destruct value; try discriminate Hs.
    rewrite (_get_typed_value_string _ _ _ _ _ _ _ _ _ _ Hk). cbn [fst].
    unfold on_string. rewrite Ho.
    destruct (value_in (VStr s) (call_options c)); [reflexivity|discriminate].
  - destruct (isinstance value (fetch_type c)) eqn:Ht.
    + rewrite (_get_typed_value_native _ _ _ _ _ _ _ _ _ _ Hk Hs Ht). cbn [fst].
      unfold on_native. rewrite Ho.
      destruct (value_in value (call_options c)); [reflexivity|discriminate].
    + rewrite (_get_typed_value_wrong _ _ _ _ _ _ _ _ _ _ Hk Hs Ht). discriminate.
Qed.

Lemma options_guard_stored_values_witness :
  value_in (VStr "dev") (Some [VStr "dev"; VStr "prod"]) = true.
Proof.
  apply (options_guard_stored_values
           (Call GetString "ENV" false false false false VNone
              (Some [VStr "dev"; VStr "prod"]))
           (init {[ "ENV" := VStr "dev" ]}) (VStr "dev") (VStr "dev")); reflexivity.
Defined.
